(** * GT8004 SDK: request logging middleware and batching transport

    A shallow embedding of [gt8004/middleware/fastapi.py] (tool-name
    extraction and [GT8004Middleware.dispatch]) and of the batching transport
    the middleware logs into, with the properties the specification states
    about them.

    Conventions.
    - A Python [str] is a [string]: the sequence of bytes of its UTF-8
      encoding.  The only character the code inspects is the slash, an ASCII
      byte that never occurs inside a multi-byte sequence, so [rstrip] and
      [split] act on the bytes as they act on the code points.
    - A Python value is a [pyval]; [None] is [PyNone].
    - A Python computation that can raise is a [result]: [Ok v] when it returns
      [v], [Raise e] when the exception [e] leaves it.  [try_except] is the
      [try: ... except (E1, E2, ...): pass] statement. *)

From Stdlib Require Import ZArith NArith QArith List String Ascii Bool Lia Lqa.
From Stdlib Require Strings.Byte.
From Stdlib Require Import DecimalString.
Import ListNotations.

Open Scope string_scope.
Open Scope list_scope.

Set Warnings "-register-all".

(* ================================================================= *)
(** ** Python values, exceptions and the operations the code uses *)

Module Py.

(** The exception classes that occur in the modelled code.  [OtherError] is
    any other subclass of [Exception]; [CancelledError], [KeyboardInterrupt]
    and [OtherBaseException] derive from [BaseException] only. *)
Inductive exn : Type :=
| JSONDecodeError
| TypeError
| AttributeError
| ValueError
| RecursionError
| TransportError
| ConfigError
| ValidationError
| OtherError (name : string)
| CancelledError
| KeyboardInterrupt
| OtherBaseException (name : string).

Definition exn_eqb (a b : exn) : bool :=
  match a, b with
  | JSONDecodeError, JSONDecodeError => true
  | TypeError, TypeError => true
  | AttributeError, AttributeError => true
  | TransportError, TransportError => true
  | ConfigError, ConfigError => true
  | ValidationError, ValidationError => true
  | ValueError, ValueError => true
  | RecursionError, RecursionError => true
  | CancelledError, CancelledError => true
  | KeyboardInterrupt, KeyboardInterrupt => true
  | OtherError x, OtherError y => String.eqb x y
  | OtherBaseException x, OtherBaseException y => String.eqb x y
  | _, _ => false
  end.

(** [isinstance(e, Exception)]: what an [except Exception] clause catches. *)
Definition is_exception (e : exn) : bool :=
  match e with
  | CancelledError | KeyboardInterrupt | OtherBaseException _ => false
  | _ => true
  end.

Inductive result (A : Type) : Type :=
| Ok (a : A)
| Raise (e : exn).

Arguments Ok {A} a.
Arguments Raise {A} e.

Definition bind {A B : Type} (m : result A) (k : A -> result B) : result B :=
  match m with
  | Ok a => k a
  | Raise e => Raise e
  end.

(** [try: body  except (handled...): pass] followed by [rest].  The body either
    executes a [return v] ([Ok (Some v)]), runs to its end ([Ok None]) or
    raises.  A listed exception is swallowed and control falls through to
    [rest], as it does when the body runs to its end; any other exception
    propagates. *)
Definition try_except {A : Type} (body : result (option A))
    (handled : list exn) (rest : result A) : result A :=
  match body with
  | Ok (Some a) => Ok a
  | Ok None => rest
  | Raise e => if existsb (exn_eqb e) handled then rest else Raise e
  end.

Definition returns {A : Type} (m : result A) : Prop := exists a, m = Ok a.

(** A Python float read from a decimal literal: the double nearest to
    [(-1)^neg * digits * 10^exp10], or one of the three constants that
    [json.loads] accepts besides. *)
Inductive pyfloat : Type :=
| FDec (neg : bool) (digits : N) (exp10 : Z)
| FInf (neg : bool)
| FNaN.

Inductive pyval : Type :=
| PyNone
| PyBool (b : bool)
| PyInt (z : Z)
| PyFloat (f : pyfloat)
| PyStr (s : string)
| PyList (l : list pyval)
| PyDict (d : list (string * pyval)).

(** A decimal [digits * 10^exp10] rounds to the double zero exactly when it is
    at most half the least subnormal, [2^-1075] (a tie rounds to even, which
    is zero). *)
Definition float_is_zero (f : pyfloat) : bool :=
  match f with
  | FDec _ digits exp10 =>
      let m := Z.of_N digits in
      (m =? 0)%Z
      || ((exp10 <? 0)%Z && (m * 2 ^ 1075 <=? 10 ^ (- exp10))%Z)
  | FInf _ => false
  | FNaN => false
  end.

(** Truth value of an object, as [if skill:] tests it. *)
Definition truthy (v : pyval) : bool :=
  match v with
  | PyNone => false
  | PyBool b => b
  | PyInt z => negb (z =? 0)%Z
  | PyFloat f => negb (float_is_zero f)
  | PyStr s => negb (String.eqb s "")
  | PyList l => match l with [] => false | _ :: _ => true end
  | PyDict d => match d with [] => false | _ :: _ => true end
  end.

(** Dictionaries built by [json.loads] have string keys; a key occurs once
    ([dict_set] replaces), in insertion order. *)
Fixpoint dict_get (d : list (string * pyval)) (key : string) : option pyval :=
  match d with
  | [] => None
  | (k, v) :: d' => if String.eqb k key then Some v else dict_get d' key
  end.

Fixpoint dict_set (d : list (string * pyval)) (key : string) (v : pyval)
  : list (string * pyval) :=
  match d with
  | [] => [(key, v)]
  | (k, w) :: d' =>
      if String.eqb k key then (k, v) :: d' else (k, w) :: dict_set d' key v
  end.

(** [obj.get(key, default)]: only a [dict] has the attribute [get]. *)
Definition py_get (obj : pyval) (key : string) (default : pyval)
  : result pyval :=
  match obj with
  | PyDict d =>
      match dict_get d key with
      | Some v => Ok v
      | None => Ok default
      end
  | _ => Raise AttributeError
  end.

(** [v == s] for a string literal [s]. *)
Definition py_eq_str (v : pyval) (s : string) : bool :=
  match v with
  | PyStr t => String.eqb t s
  | _ => false
  end.

(** The value is a [str] or [None]. *)
Definition is_opt_str (v : pyval) : bool :=
  match v with
  | PyNone | PyStr _ => true
  | _ => false
  end.

End Py.

Import Py.

Notation "x <- m ;; k" := (bind m (fun x => k))
  (at level 61, m at next level, right associativity).

(* ================================================================= *)
(** ** The string methods [rstrip] and [split] *)

Module Str.

Fixpoint mem (c : ascii) (chars : string) : bool :=
  match chars with
  | EmptyString => false
  | String a rest => Ascii.eqb a c || mem c rest
  end.

Definition is_empty (s : string) : bool :=
  match s with
  | EmptyString => true
  | String _ _ => false
  end.

(** [s.rstrip(chars)]: drop the longest suffix made of characters of
    [chars]. *)
Fixpoint rstrip (chars : string) (s : string) : string :=
  match s with
  | EmptyString => EmptyString
  | String a rest =>
      let r := rstrip chars rest in
      if mem a chars && is_empty r then EmptyString else String a r
  end.

(** [s.split(sep)] for a one-character separator: the pieces between the
    occurrences of [sep], empty pieces kept; never an empty list. *)
Fixpoint split (sep : ascii) (s : string) : list string :=
  match s with
  | EmptyString => [EmptyString]
  | String a rest =>
      if Ascii.eqb a sep then EmptyString :: split sep rest
      else
        match split sep rest with
        | piece :: pieces => String a piece :: pieces
        | [] => [String a EmptyString]
        end
  end.

(** [l[-1]] on a non-empty list. *)
Definition last_item (l : list string) : string := List.last l EmptyString.

Definition nonempty (s : string) : bool := negb (is_empty s).

(** The last of the non-empty pieces, the empty string when there is none. *)
Definition last_nonempty (l : list string) : string :=
  last_item (filter nonempty l).

Definition slash : ascii := "/"%char.

(** Every character of [s] is one of [chars]. *)
Fixpoint all_in (chars : string) (s : string) : bool :=
  match s with
  | EmptyString => true
  | String a rest => mem a chars && all_in chars rest
  end.

End Str.

(* ================================================================= *)
(** ** [json.loads]: a reference decoder

    The extractors call the library function [json.loads].  The properties
    below are proved for every decoder ([JSONDecoder]), whatever it raises;
    this executable decoder follows the grammar of Python's decoder (strict
    mode), raises [ValueError] on an integer of more than 4300 digits as the
    interpreter does, and instantiates the class, so that the
    extractors can be run on the request bodies used in the tests. *)

Module Json.

Definition dquote : ascii := ascii_of_nat 34.
Definition backslash : ascii := ascii_of_nat 92.

Definition is_ws (c : ascii) : bool :=
  Ascii.eqb c " "%char || Ascii.eqb c (ascii_of_nat 9)
  || Ascii.eqb c (ascii_of_nat 10) || Ascii.eqb c (ascii_of_nat 13).

Fixpoint skip_ws (s : string) : string :=
  match s with
  | String c rest => if is_ws c then skip_ws rest else s
  | EmptyString => s
  end.

Definition digit_val (c : ascii) : option N :=
  let n := N_of_ascii c in
  if (48 <=? n)%N && (n <=? 57)%N then Some (n - 48)%N else None.

Definition hex_val (c : ascii) : option N :=
  let n := N_of_ascii c in
  if (48 <=? n)%N && (n <=? 57)%N then Some (n - 48)%N
  else if (65 <=? n)%N && (n <=? 70)%N then Some (n - 55)%N
  else if (97 <=? n)%N && (n <=? 102)%N then Some (n - 87)%N
  else None.

(** The longest run of decimal digits at the head of [s]: its value on top of
    [acc], how many digits it has, and what follows. *)
Fixpoint digits (acc : N) (count : nat) (s : string) : N * nat * string :=
  match s with
  | String c rest =>
      match digit_val c with
      | Some d => digits (acc * 10 + d)%N (S count) rest
      | None => (acc, count, s)
      end
  | EmptyString => (acc, count, s)
  end.

(** The integer part [0|[1-9][0-9]*]. *)
Definition int_part (s : string) : option (N * string) :=
  match s with
  | String c rest =>
      match digit_val c with
      | Some 0%N => Some (0%N, rest)
      | Some d => let '(n, _, rest') := digits d 1 rest in Some (n, rest')
      | None => None
      end
  | EmptyString => None
  end.

(** The optional fraction [\.[0-9]+]: its digits appended to [acc], their
    number, the rest; [None] when there is no fraction at the head of [s]. *)
Definition frac_part (acc : N) (s : string) : option (N * nat * string) :=
  match s with
  | String "."%char rest =>
      match digits acc 0 rest with
      | (_, O, _) => None
      | r => Some r
      end
  | _ => None
  end.

(** The optional exponent [[eE][-+]?[0-9]+]. *)
Definition exp_part (s : string) : option (Z * string) :=
  match s with
  | String c rest =>
      if Ascii.eqb c "e"%char || Ascii.eqb c "E"%char then
        let '(neg, rest1) :=
          match rest with
          | String "-"%char r => (true, r)
          | String "+"%char r => (false, r)
          | _ => (false, rest)
          end in
        match digits 0 0 rest1 with
        | (_, O, _) => None
        | (n, _, rest2) =>
            Some (if neg then (- Z.of_N n)%Z else Z.of_N n, rest2)
        end
      else None
  | EmptyString => None
  end.

(** [sys.int_info.default_max_str_digits]: converting a longer run of digits
    to an [int] raises [ValueError]. *)
Definition max_str_digits : nat := 4300.

(** How many digits the integer part at the head of [s] has. *)
Definition int_digits (s : string) : nat :=
  let '(_, count, _) := digits 0 0 s in count.

(** A number: an [int] when it has neither fraction nor exponent, else a
    [float].  [None] when no number starts here. *)
Definition number (s : string) : option (result (pyval * string)) :=
  let '(neg, s1) :=
    match s with
    | String "-"%char r => (true, r)
    | _ => (false, s)
    end in
  match int_part s1 with
  | None => None
  | Some (n, s2) =>
      let '(m, fcount, s3, has_frac) :=
        match frac_part n s2 with
        | Some (m, k, r) => (m, k, r, true)
        | None => (n, O, s2, false)
        end in
      let '(e, s4, has_exp) :=
        match exp_part s3 with
        | Some (e, r) => (e, r, true)
        | None => (0%Z, s3, false)
        end in
      if has_frac || has_exp
      then Some (Ok (PyFloat (FDec neg m (e - Z.of_nat fcount)), s4))
      else if Nat.ltb max_str_digits (int_digits s1)
      then Some (Raise ValueError)
      else Some (Ok (PyInt (if neg then (- Z.of_N n)%Z else Z.of_N n), s4))
  end.

Definition byte_of (n : N) : ascii := ascii_of_N n.

(** [chr(cp)] as UTF-8 bytes (a lone surrogate in the three-byte form). *)
Definition utf8_encode (cp : N) : string :=
  if (cp <? 128)%N then String (byte_of cp) EmptyString
  else if (cp <? 2048)%N then
    String (byte_of (192 + cp / 64))
      (String (byte_of (128 + cp mod 64)) EmptyString)
  else if (cp <? 65536)%N then
    String (byte_of (224 + cp / 4096))
      (String (byte_of (128 + (cp / 64) mod 64))
         (String (byte_of (128 + cp mod 64)) EmptyString))
  else
    String (byte_of (240 + cp / 262144))
      (String (byte_of (128 + (cp / 4096) mod 64))
         (String (byte_of (128 + (cp / 64) mod 64))
            (String (byte_of (128 + cp mod 64)) EmptyString))).

(** Four hexadecimal digits at the head of [s]. *)
Definition hex4 (s : string) : option (N * string) :=
  match s with
  | String a (String b (String c (String d rest))) =>
      match hex_val a, hex_val b, hex_val c, hex_val d with
      | Some x, Some y, Some z, Some w =>
          Some (((x * 16 + y) * 16 + z) * 16 + w, rest)%N
      | _, _, _, _ => None
      end
  | _ => None
  end.

Definition simple_escape (c : ascii) : option ascii :=
  if Ascii.eqb c dquote then Some dquote
  else if Ascii.eqb c backslash then Some backslash
  else if Ascii.eqb c "/"%char then Some "/"%char
  else if Ascii.eqb c "b"%char then Some (ascii_of_nat 8)
  else if Ascii.eqb c "f"%char then Some (ascii_of_nat 12)
  else if Ascii.eqb c "n"%char then Some (ascii_of_nat 10)
  else if Ascii.eqb c "r"%char then Some (ascii_of_nat 13)
  else if Ascii.eqb c "t"%char then Some (ascii_of_nat 9)
  else None.

(** The [\uXXXX] escape after its [u], with the surrogate pair rule. *)
Definition unicode_escape (s : string) : option (string * string) :=
  match hex4 s with
  | None => None
  | Some (uni, rest) =>
      let single := Some (utf8_encode uni, rest) in
      if (55296 <=? uni)%N && (uni <=? 56319)%N then
        match rest with
        | String b (String "u"%char rest1) =>
            if Ascii.eqb b backslash then
              match hex4 rest1 with
              | Some (uni2, rest2) =>
                  if (56320 <=? uni2)%N && (uni2 <=? 57343)%N
                  then Some (utf8_encode
                               (65536 + ((uni - 55296) * 1024
                                         + (uni2 - 56320)))%N, rest2)
                  else single
              | None => single
              end
            else single
        | _ => single
        end
      else single
  end.

(** The body of a string literal, after its opening quote, up to and including
    the closing quote. *)
Fixpoint scanstring (fuel : nat) (s : string) : option (string * string) :=
  match fuel with
  | O => None
  | S fuel' =>
      match s with
      | EmptyString => None
      | String c rest =>
          if Ascii.eqb c dquote then Some (EmptyString, rest)
          else if Ascii.eqb c backslash then
            match rest with
            | EmptyString => None
            | String esc rest1 =>
                if Ascii.eqb esc "u"%char then
                  match unicode_escape rest1 with
                  | None => None
                  | Some (bytes, rest2) =>
                      match scanstring fuel' rest2 with
                      | Some (tail, rest3) => Some (String.append bytes tail, rest3)
                      | None => None
                      end
                  end
                else
                  match simple_escape esc with
                  | None => None
                  | Some ch =>
                      match scanstring fuel' rest1 with
                      | Some (tail, rest2) => Some (String ch tail, rest2)
                      | None => None
                      end
                  end
            end
          else if (N_of_ascii c <? 32)%N then None
          else
            match scanstring fuel' rest with
            | Some (tail, rest1) => Some (String c tail, rest1)
            | None => None
            end
      end
  end.

Definition starts_with (p s : string) : option string :=
  if String.prefix p s
  then Some (String.substring (String.length p)
               (String.length s - String.length p) s)
  else None.

(** A failure of the scanner: the document is not valid JSON. *)
Definition invalid {A : Type} : result A := Raise JSONDecodeError.

(** The constants, tried in the decoder's order around the number. *)
Definition constant (s : string) : result (pyval * string) :=
  match starts_with "null" s with
  | Some r => Ok (PyNone, r)
  | None =>
  match starts_with "true" s with
  | Some r => Ok (PyBool true, r)
  | None =>
  match starts_with "false" s with
  | Some r => Ok (PyBool false, r)
  | None =>
  match number s with
  | Some r => r
  | None =>
  match starts_with "NaN" s with
  | Some r => Ok (PyFloat FNaN, r)
  | None =>
  match starts_with "Infinity" s with
  | Some r => Ok (PyFloat (FInf false), r)
  | None =>
  match starts_with "-Infinity" s with
  | Some r => Ok (PyFloat (FInf true), r)
  | None => invalid
  end end end end end end end.

(** [scan_once]: one value at the head of [s]; [array_items] and
    [object_items] are the loops of [JSONArray] and [JSONObject], entered
    where the first item (the first key's opening quote) is expected. *)
Fixpoint scan_once (fuel : nat) (s : string) : result (pyval * string) :=
  match fuel with
  | O => invalid
  | S fuel' =>
      match s with
      | EmptyString => invalid
      | String c rest =>
          if Ascii.eqb c dquote then
            match scanstring (S (String.length rest)) rest with
            | Some (str, rest1) => Ok (PyStr str, rest1)
            | None => invalid
            end
          else if Ascii.eqb c "{"%char then
            match skip_ws rest with
            | String "}"%char rest1 => Ok (PyDict [], rest1)
            | rest1 =>
                match object_items fuel' rest1 [] with
                | Ok (d, rest2) => Ok (PyDict d, rest2)
                | Raise e => Raise e
                end
            end
          else if Ascii.eqb c "["%char then
            match skip_ws rest with
            | String "]"%char rest1 => Ok (PyList [], rest1)
            | rest1 =>
                match array_items fuel' rest1 [] with
                | Ok (l, rest2) => Ok (PyList l, rest2)
                | Raise e => Raise e
                end
            end
          else constant s
      end
  end

with array_items (fuel : nat) (s : string) (acc : list pyval)
  : result (list pyval * string) :=
  match fuel with
  | O => invalid
  | S fuel' =>
      match scan_once fuel' s with
      | Raise e => Raise e
      | Ok (v, rest) =>
          match skip_ws rest with
          | String "]"%char rest1 => Ok (acc ++ [v], rest1)
          | String ","%char rest1 =>
              array_items fuel' (skip_ws rest1) (acc ++ [v])
          | _ => invalid
          end
      end
  end

with object_items (fuel : nat) (s : string) (acc : list (string * pyval))
  : result (list (string * pyval) * string) :=
  match fuel with
  | O => invalid
  | S fuel' =>
      match s with
      | String q rest =>
          if Ascii.eqb q dquote then
            match scanstring (S (String.length rest)) rest with
            | None => invalid
            | Some (key, rest1) =>
                match skip_ws rest1 with
                | String ":"%char rest2 =>
                    match scan_once fuel' (skip_ws rest2) with
                    | Raise e => Raise e
                    | Ok (v, rest3) =>
                        match skip_ws rest3 with
                        | String "}"%char rest4 =>
                            Ok (dict_set acc key v, rest4)
                        | String ","%char rest4 =>
                            object_items fuel' (skip_ws rest4)
                              (dict_set acc key v)
                        | _ => invalid
                        end
                    end
                | _ => invalid
                end
            end
          else invalid
      | EmptyString => invalid
      end
  end.

(** [json.loads(s)]: one value between optional whitespace, nothing after
    it. *)
Definition loads (s : string) : result pyval :=
  let s0 := skip_ws s in
  match scan_once (2 * S (String.length s0)) s0 with
  | Ok (v, rest) =>
      if Str.is_empty (skip_ws rest) then Ok v else invalid
  | Raise e => Raise e
  end.

(** Building request bodies: [quoted s] is [s] between double quotes. *)
Definition quoted (s : string) : string :=
  String dquote (String.append s (String dquote EmptyString)).

End Json.

(* ================================================================= *)
(** ** Tool-name extraction ([gt8004/middleware/fastapi.py]) *)

(** [json.loads]: it returns the decoded value or raises.  On a document
    that is not valid JSON, the empty one among them, it raises
    [json.JSONDecodeError]; it also raises what the interpreter raises for
    limits of its own ([RecursionError] on a deeply nested document,
    [ValueError] on an integer of too many digits), so nothing is assumed
    about the exceptions it raises. *)
Class JSONDecoder : Type := {
  json_loads : string -> result pyval;
  json_loads_empty : json_loads "" = Raise JSONDecodeError
}.

Definition _BODY_LIMIT : Z := 16384.

(** The exceptions of the two [except] clauses. *)
Definition handled : list exn := [JSONDecodeError; TypeError; AttributeError].

Section Extractors.

Context {decoder : JSONDecoder}.

(** [_extract_mcp_tool_name(body)]. *)
Definition _extract_mcp_tool_name (body : option string) : result pyval :=
  match body with
  | None => Ok PyNone
  | Some b =>
      if String.eqb b "" then Ok PyNone
      else
        try_except
          (data <- json_loads b ;;
           method <- py_get data "method" PyNone ;;
           if py_eq_str method "tools/call" then
             params <- py_get data "params" (PyDict []) ;;
             name <- py_get params "name" PyNone ;;
             Ok (Some name)
           else Ok None)
          handled
          (Ok PyNone)
  end.

(** The path fallback of [_extract_a2a_tool_name], its last two lines. *)
Definition a2a_path_fallback (path : string) : result pyval :=
  let segments := Str.split Str.slash (Str.rstrip "/" path) in
  Ok (match segments with
      | [] => PyNone
      | _ :: _ => PyStr (Str.last_item segments)
      end).

(** [_extract_a2a_tool_name(body, path)]. *)
Definition _extract_a2a_tool_name (body : option string) (path : string)
  : result pyval :=
  match body with
  | None => a2a_path_fallback path
  | Some b =>
      if String.eqb b "" then a2a_path_fallback path
      else
        try_except
          (data <- json_loads b ;;
           skill <- py_get data "skill_id" PyNone ;;
           if truthy skill then Ok (Some skill) else Ok None)
          handled
          (a2a_path_fallback path)
  end.

(** [_extract_http_tool_name(path)]. *)
Definition _extract_http_tool_name (path : string) : result pyval :=
  let segments := Str.split Str.slash (Str.rstrip "/" path) in
  Ok (match segments with
      | [] => PyNone
      | _ :: _ => PyStr (Str.last_item segments)
      end).

Definition opt_str_eqb (a : option string) (s : string) : bool :=
  match a with
  | Some t => String.eqb t s
  | None => false
  end.

(** The protocol dispatch of [GT8004Middleware.dispatch]
    ([if protocol == ... elif ... else]). *)
Definition extract_tool_name (protocol : option string) (body : option string)
    (path : string) : result pyval :=
  if opt_str_eqb protocol "mcp" then _extract_mcp_tool_name body
  else if opt_str_eqb protocol "a2a" then _extract_a2a_tool_name body path
  else _extract_http_tool_name path.

(** The body decodes to a mapping whose method is [tools/call] and whose
    params is a mapping that has a name, [name]. *)
Definition mcp_tools_call_name (body : option string) (name : pyval) : Prop :=
  exists b data params,
    body = Some b
    /\ json_loads b = Ok (PyDict data)
    /\ dict_get data "method" = Some (PyStr "tools/call")
    /\ dict_get data "params" = Some (PyDict params)
    /\ dict_get params "name" = Some name.

(** The body decodes to a mapping that has a skill_id, [skill]. *)
Definition a2a_skill_id (body : option string) (skill : pyval) : Prop :=
  exists b data,
    body = Some b
    /\ json_loads b = Ok (PyDict data)
    /\ dict_get data "skill_id" = Some skill.

(** On the body, [json.loads] returns or raises an exception that the
    [except] clause of the extractors lists. *)
Definition decodes_or_caught (body : option string) : Prop :=
  match body with
  | None => True
  | Some b => forall e, json_loads b = Raise e -> In e handled
  end.

End Extractors.

(* ================================================================= *)
(** ** [GT8004Middleware.dispatch] *)

Module Middleware.

Definition bytes : Type := list Byte.byte.

(** [len(b)]. *)
Definition len (b : bytes) : Z := Z.of_nat (List.length b).

(** A chunk of a streaming response body: [str] or [bytes]. *)
Inductive chunk : Type :=
| ChunkStr (s : string)
| ChunkBytes (b : bytes).

(** [chunk.encode("utf-8")]: a [str] is kept as its UTF-8 bytes. *)
Definition encode_utf8 (s : string) : bytes := list_byte_of_string s.

(** What [dispatch] reads of the request.  [body] is the outcome of
    [await request.body()], [header] is [request.headers.get], [client] is
    [request.client.host] when there is a client. *)
Record Request : Type := {
  method : string;
  url_path : string;
  body : result bytes;
  header : string -> option string;
  client : option string
}.

(** The response [call_next] returns.  Its body iterator yields [chunks] and
    then either ends or raises [iter_error]. *)
Record Response : Type := {
  status_code : Z;
  chunks : list chunk;
  iter_error : option exn;
  headers : list (string * string);
  media_type : option string
}.

(** The readings of the clock and of the random source during one call. *)
Record Env : Type := {
  start_time : Q;
  end_time : Q;
  uuid4 : string;
  utcnow_isoformat : string
}.

(** The fields [dispatch] passes to [RequestLogEntry]. *)
Record RequestLogEntry : Type := {
  request_id : string;
  entry_method : string;
  path : string;
  entry_status_code : Z;
  response_ms : Q;
  tool_name : pyval;
  protocol : option string;
  request_body : option string;
  request_body_size : Z;
  response_body : option string;
  response_body_size : Z;
  entry_headers : option (list (string * string));
  ip_address : option string;
  timestamp : string
}.

(** [request.method in ("POST", "PUT", "PATCH")]. *)
Definition has_body_method (request : Request) : bool :=
  existsb (String.eqb (method request)) ["POST"; "PUT"; "PATCH"].

Section Dispatch.

Context {decoder : JSONDecoder}.

(** [b.decode("utf-8", errors="ignore")]. *)
Variable decode_utf8_ignore : bytes -> string.

(** [except Exception: pass] around a block that assigns the variables [A]:
    an exception that derives from [Exception] leaves them as they were when
    it was raised ([on_raise]); any other one ([CancelledError],
    [KeyboardInterrupt], ...) propagates. *)
Definition except_pass {A : Type} (block : result A) (on_raise : A)
  : result A :=
  match block with
  | Ok a => Ok a
  | Raise e => if is_exception e then Ok on_raise else Raise e
  end.

(** Lines 91-100: the request body and its size. *)
Definition capture_request (request : Request)
  : result (option string * Z) :=
  if has_body_method request then
    except_pass
      (body_bytes <- body request ;;
       let request_body_size := len body_bytes in
       Ok (if (request_body_size <=? _BODY_LIMIT)%Z
           then (Some (decode_utf8_ignore body_bytes), request_body_size)
           else (None, request_body_size)))
      (None, 0%Z)
  else Ok (None, 0%Z).

(** The loop of lines 109-113: the chunks read, as bytes. *)
Definition as_bytes (c : chunk) : bytes :=
  match c with
  | ChunkStr s => encode_utf8 s
  | ChunkBytes b => b
  end.

Definition read_body (response : Response) : result bytes :=
  match iter_error response with
  | Some e => Raise e
  | None => Ok (List.concat (List.map as_bytes (chunks response)))
  end.

(** The headers of [Response(content=raw, status_code=...,
    headers=dict(response.headers), media_type=...)], from the headers of
    [response], [raw], the status code and the media type.  The constructor
    is the framework's, not under [src/]: it keeps one value for a name that
    is repeated and adds headers of its own (content-length). *)
Variable Response_headers :
  list (string * string) -> bytes -> Z -> option string ->
  list (string * string).

(** The response object once its body iterator has raised: the same object,
    whose iterator yields nothing more. *)
Definition consumed (response : Response) : Response :=
  {| status_code := status_code response;
     chunks := [];
     iter_error := None;
     headers := headers response;
     media_type := media_type response |}.

(** Lines 105-126: the response body, its size, and the response handed
    back: a new one around the bytes read, or, when reading raised, the one
    [call_next] returned, its iterator used up. *)
Definition capture_response (response : Response)
  : result (option string * Z * Response) :=
  except_pass
    (raw <- read_body response ;;
     let response_body_size := len raw in
     let response_body :=
       if (response_body_size <=? _BODY_LIMIT)%Z
       then Some (decode_utf8_ignore raw) else None in
     Ok (response_body, response_body_size,
         {| status_code := status_code response;
            chunks := [ChunkBytes raw];
            iter_error := None;
            headers := Response_headers (headers response) raw
                         (status_code response) (media_type response);
            media_type := media_type response |}))
    (None, 0%Z, consumed response).

(** Lines 143-148: the three headers kept, those present. *)
Definition capture_headers (request : Request) : list (string * string) :=
  List.flat_map
    (fun k => match header request k with
              | Some v => [(k, v)]
              | None => []
              end)
    ["user-agent"; "content-type"; "referer"].

(** The constructor [RequestLogEntry(...)] of [gt8004/types.py] validates its
    fields and raises [ValidationError] on those it rejects ([validate] tells
    which it accepts); [logger.log] is the logger's coroutine.  Neither is
    under [src/]: both are taken as they come. *)
Variable validate : RequestLogEntry -> bool.
Variable logger_log : RequestLogEntry -> result unit.

Definition new_RequestLogEntry (fields : RequestLogEntry)
  : result RequestLogEntry :=
  if validate fields then Ok fields else Raise ValidationError.

(** Lines 131-165: the entry built from what was captured. *)
Definition build_entry (env : Env) (logger_protocol : option string)
    (request : Request) (request_body : option string)
    (request_body_size : Z) (response_body : option string)
    (response_body_size : Z) (response : Response)
  : result RequestLogEntry :=
  let response_time := ((end_time env - start_time env) * 1000)%Q in
  let path := url_path request in
  tool_name <- extract_tool_name logger_protocol request_body path ;;
  let headers := capture_headers request in
  new_RequestLogEntry
    {| request_id := uuid4 env;
       entry_method := method request;
       path := path;
       entry_status_code := status_code response;
       response_ms := response_time;
       tool_name := tool_name;
       protocol := logger_protocol;
       request_body := request_body;
       request_body_size := request_body_size;
       response_body := response_body;
       response_body_size := response_body_size;
       entry_headers := match headers with [] => None | _ => Some headers end;
       ip_address := client request;
       timestamp := String.append (utcnow_isoformat env) "Z" |}.

(** [dispatch(request, call_next)] for a logger whose protocol is
    [logger_protocol]: the entries passed to [logger.log] (one, or none when
    an exception comes first) and the outcome, the response returned or the
    exception raised. *)
Definition dispatch (env : Env) (logger_protocol : option string)
    (request : Request) (call_next : result Response)
  : list RequestLogEntry * result Response :=
  match capture_request request with
  | Raise e => ([], Raise e)
  | Ok (request_body, request_body_size) =>
      match call_next with
      | Raise e => ([], Raise e)
      | Ok response0 =>
          match capture_response response0 with
          | Raise e => ([], Raise e)
          | Ok (response_body, response_body_size, response) =>
              match build_entry env logger_protocol request request_body
                      request_body_size response_body response_body_size
                      response
              with
              | Raise e => ([], Raise e)
              | Ok entry => ([entry], _ <- logger_log entry ;; Ok response)
              end
          end
      end
  end.

End Dispatch.

(** The same request with another outcome of [await request.body()]. *)
Definition with_body (request : Request) (b : result bytes) : Request :=
  {| method := method request;
     url_path := url_path request;
     body := b;
     header := header request;
     client := client request |}.

End Middleware.

(* ================================================================= *)
(** ** The batching transport ([gt8004/transport.py])

    The module is exercised by [tests/test_transport.py]; its definitions
    below follow section 4.2 of the specification.  Time is the reading of the
    clock in seconds, passed to each operation.  The network is a script of
    replies, one per request, and the log of the requests made. *)

Module Transport.

Import Middleware.

Definition Entry : Type := RequestLogEntry.

(** Modelled from the spec: the configuration of section 6 that the sends
    use, [ingest_url], [api_key], [agent_id]. *)
Record Config : Type := {
  ingest_url : string;
  api_key : string;
  agent_id : string
}.

(** Modelled from the spec: the [Batch] of section 3 (the class [LogBatch] of
    [gt8004/types.py]), a group of entries with the agent identifier and the
    SDK version. *)
Record Batch : Type := {
  batch_agent_id : string;
  sdk_version : string;
  entries : list Entry
}.

(** Modelled from the spec: the request of section 6, [POST <ingest_url>] with
    the header [Authorization: Bearer <api_key>] and the batch as body. *)
Record Post : Type := {
  post_url : string;
  authorization : string;
  post_body : Batch
}.

(** Modelled from the spec: what a send attempt meets, a response with its
    status code or a network error. *)
Inductive reply : Type :=
| Status (code : Z)
| NetworkFailure.

(** Modelled from the spec: section 6, [Expected success: any 2xx status;
    anything else is a transport failure]. *)
Definition is_2xx (r : reply) : bool :=
  match r with
  | Status code => (200 <=? code)%Z && (code <? 300)%Z
  | NetworkFailure => false
  end.

(** Modelled from the spec: the ingest endpoint as seen from the transport,
    the reply the k-th request will get and the requests made so far. *)
Record Network : Type := {
  replies : nat -> reply;
  posts : list Post
}.

Definition next_reply (net : Network) : reply :=
  replies net (List.length (posts net)).

(** Modelled from the spec: the [TransportState] of section 3, with the
    periodic timer and the network client of [close] as two flags. *)
Record TransportState : Type := {
  config : Config;
  buffer : list Entry;
  batch_size : Z;
  flush_interval : Q;
  consecutive_failures : Z;
  circuit_breaker_until : option Q;
  timer_running : bool;
  client_closed : bool
}.

Definition set_buffer (st : TransportState) (b : list Entry) :=
  {| config := config st; buffer := b; batch_size := batch_size st;
     flush_interval := flush_interval st;
     consecutive_failures := consecutive_failures st;
     circuit_breaker_until := circuit_breaker_until st;
     timer_running := timer_running st; client_closed := client_closed st |}.

Definition set_failures (st : TransportState) (n : Z) :=
  {| config := config st; buffer := buffer st; batch_size := batch_size st;
     flush_interval := flush_interval st;
     consecutive_failures := n;
     circuit_breaker_until := circuit_breaker_until st;
     timer_running := timer_running st; client_closed := client_closed st |}.

Definition set_breaker (st : TransportState) (u : option Q) :=
  {| config := config st; buffer := buffer st; batch_size := batch_size st;
     flush_interval := flush_interval st;
     consecutive_failures := consecutive_failures st;
     circuit_breaker_until := u;
     timer_running := timer_running st; client_closed := client_closed st |}.

Definition set_timer (st : TransportState) (b : bool) :=
  {| config := config st; buffer := buffer st; batch_size := batch_size st;
     flush_interval := flush_interval st;
     consecutive_failures := consecutive_failures st;
     circuit_breaker_until := circuit_breaker_until st;
     timer_running := b; client_closed := client_closed st |}.

Definition set_client_closed (st : TransportState) (b : bool) :=
  {| config := config st; buffer := buffer st; batch_size := batch_size st;
     flush_interval := flush_interval st;
     consecutive_failures := consecutive_failures st;
     circuit_breaker_until := circuit_breaker_until st;
     timer_running := timer_running st; client_closed := b |}.

Definition Qltb (a b : Q) : bool := negb (Qle_bool b a).

(** The version [tests/test_types.py] expects in a batch. *)
Definition SDK_VERSION : string := "python-0.2.0".

(** Modelled from the spec: [fixed cooldown, e.g. 60s]. *)
Definition backoff_seconds : Q := 60.

(** Modelled from the spec: [If consecutive_failures >= 5, open the circuit
    breaker]. *)
Definition failure_threshold : Z := 5.

(** Modelled from the spec: construction, with the defaults of section 3 for
    [None]; [ConfigError if batch_size <= 0 or flush_interval <= 0]. *)
Definition BatchTransport (cfg : Config) (batch_size : option Z)
    (flush_interval : option Q) : result TransportState :=
  let size := match batch_size with Some n => n | None => 50%Z end in
  let interval := match flush_interval with Some i => i | None => 5%Q end in
  if (size <=? 0)%Z || Qle_bool interval 0 then Raise ConfigError
  else Ok {| config := cfg; buffer := []; batch_size := size;
             flush_interval := interval; consecutive_failures := 0%Z;
             circuit_breaker_until := None;
             timer_running := false; client_closed := false |}.

(** Modelled from the spec: the breaker is open while
    [current time < circuit_breaker_until]. *)
Definition breaker_open (now : Q) (st : TransportState) : bool :=
  match circuit_breaker_until st with
  | Some until => Qltb now until
  | None => false
  end.

(** Modelled from the spec: the request that carries [batch]. *)
Definition make_post (cfg : Config) (batch : list Entry) : Post :=
  {| post_url := ingest_url cfg;
     authorization := String.append "Bearer " (api_key cfg);
     post_body := {| batch_agent_id := agent_id cfg;
                     sdk_version := SDK_VERSION;
                     entries := batch |} |}.

(** Modelled from the spec: one send attempt, a [POST] of the batch; a network
    error or a status outside 2xx is a [TransportError]. *)
Definition send (cfg : Config) (net : Network) (batch : list Entry)
  : result unit * Network :=
  let net' := {| replies := replies net;
                 posts := posts net ++ [make_post cfg batch] |} in
  (if is_2xx (next_reply net) then Ok tt else Raise TransportError, net').

(** Modelled from the spec: the first half of [flush], up to the send: nothing
    to do ([None]) when the buffer is empty or the breaker is open, otherwise
    the snapshot, with the buffer cleared. *)
Definition flush_begin (now : Q) (st : TransportState)
  : option (list Entry * TransportState) :=
  match buffer st with
  | [] => None
  | _ :: _ =>
      if breaker_open now st then None
      else Some (buffer st, set_buffer st [])
  end.

(** Modelled from the spec: the second half of [flush], after the send:
    [On success: buffer stays empty; reset consecutive_failures to 0.  On
    failure: increment consecutive_failures; re-queue the failed entries by
    prepending them back onto the buffer.  If consecutive_failures >= 5, open
    the circuit breaker by setting circuit_breaker_until = now +
    backoff_seconds]. *)
Definition flush_finish (now : Q) (sent : bool) (batch : list Entry)
    (st : TransportState) : TransportState :=
  if sent then set_failures st 0%Z
  else
    let failures := (consecutive_failures st + 1)%Z in
    let st1 := set_buffer (set_failures st failures) (batch ++ buffer st) in
    if (failure_threshold <=? failures)%Z
    then set_breaker st1 (Some (now + backoff_seconds)%Q)
    else st1.

(** Modelled from the spec: [flush()].  The send is the one point where the
    caller is suspended: [late] are the entries that [add] calls append to the
    buffer meanwhile (none when nothing else runs).  The [TransportError] of
    the send is handled here. *)
Definition flush_during (now : Q) (late : list Entry) (st : TransportState)
    (net : Network) : result (TransportState * Network) :=
  match flush_begin now st with
  | None => Ok (st, net)
  | Some (batch, st1) =>
      let '(r, net1) := send (config st) net batch in
      let st2 := set_buffer st1 (buffer st1 ++ late) in
      match r with
      | Ok _ => Ok (flush_finish now true batch st2, net1)
      | Raise e =>
          if exn_eqb e TransportError
          then Ok (flush_finish now false batch st2, net1)
          else Raise e
      end
  end.

(** Modelled from the spec: [flush()] when nothing else runs during the
    send. *)
Definition flush (now : Q) (st : TransportState) (net : Network)
  : result (TransportState * Network) :=
  flush_during now [] st net.

(** Modelled from the spec: [add(entry)]: append, then flush when
    [len(buffer) >= batch_size]. *)
Definition add (now : Q) (entry : Entry) (st : TransportState)
    (net : Network) : result (TransportState * Network) :=
  let st1 := set_buffer st (buffer st ++ [entry]) in
  if (batch_size st1 <=? Z.of_nat (List.length (buffer st1)))%Z
  then flush now st1 net
  else Ok (st1, net).

(** Modelled from the spec: the periodic timer, which invokes [flush] every
    [flush_interval] seconds while it runs. *)
Definition start_auto_flush (st : TransportState) : TransportState :=
  set_timer st true.

(** Modelled from the spec: one firing of the timer. *)
Definition timer_fires (now : Q) (st : TransportState) (net : Network)
  : result (TransportState * Network) :=
  if timer_running st then flush now st net else Ok (st, net).

(** Modelled from the spec: [close()]: stop the timer, flush once more,
    release the network client. *)
Definition close (now : Q) (st : TransportState) (net : Network)
  : result (TransportState * Network) :=
  p <- flush now (set_timer st false) net ;;
  Ok (set_client_closed (fst p) true, snd p).

(** Modelled from the spec: the facade of section 4.3, [log(entry)] an alias
    for [add]. *)
Definition log (now : Q) (entry : Entry) (st : TransportState)
    (net : Network) : result (TransportState * Network) :=
  add now entry st net.

(** A sequence of [add] calls, each with the time of its call. *)
Fixpoint add_all (calls : list (Q * Entry)) (st : TransportState)
    (net : Network) : result (TransportState * Network) :=
  match calls with
  | [] => Ok (st, net)
  | (now, entry) :: rest =>
      p <- add now entry st net ;;
      add_all rest (fst p) (snd p)
  end.

(** The times of the calls never go back. *)
Fixpoint nondecreasing (times : list Q) : Prop :=
  match times with
  | [] => True
  | t :: rest =>
      (match rest with [] => True | t' :: _ => (t <= t')%Q end)
      /\ nondecreasing rest
  end.

(** While the buffer is below the batch size, the breaker has been closed
    since time [t] at the latest. *)
Definition closed_when_short (st : TransportState) (t : Q) : Prop :=
  (Z.of_nat (List.length (buffer st)) < batch_size st)%Z ->
  forall until, circuit_breaker_until st = Some until -> (until <= t)%Q.

(** The time of the last of [calls], [t0] when there is none. *)
Definition last_time (t0 : Q) (calls : list (Q * Entry)) : Q :=
  List.last (List.map fst calls) t0.

End Transport.

(* ================================================================= *)
(** ** Request bodies of the tests ([tests/test_extract.py]) *)

Module Fixtures.

Definition cat (parts : list string) : string :=
  fold_right String.append EmptyString parts.

Definition q : string -> string := Json.quoted.

(** [{"method": "tools/call", "params": {"name": "search"}}] *)
Definition mcp_tools_call : string :=
  cat ["{"; q "method"; ": "; q "tools/call"; ", "; q "params"; ": {";
       q "name"; ": "; q "search"; "}}"].

(** [{"method": "resources/list", "params": {"name": "foo"}}] *)
Definition mcp_other_method : string :=
  cat ["{"; q "method"; ": "; q "resources/list"; ", "; q "params"; ": {";
       q "name"; ": "; q "foo"; "}}"].

(** [{"method": "tools/call"}] *)
Definition mcp_missing_params : string :=
  cat ["{"; q "method"; ": "; q "tools/call"; "}"].

(** [{"method": "tools/call", "params": {"name": 5}}] *)
Definition mcp_numeric_name : string :=
  cat ["{"; q "method"; ": "; q "tools/call"; ", "; q "params"; ": {";
       q "name"; ": 5}}"].

(** [{"skill_id": "translate", "input": "hello"}] *)
Definition a2a_translate : string :=
  cat ["{"; q "skill_id"; ": "; q "translate"; ", "; q "input"; ": ";
       q "hello"; "}"].

(** [{"input": "hello"}] *)
Definition a2a_no_skill : string :=
  cat ["{"; q "input"; ": "; q "hello"; "}"].

(** [{"skill_id": ""}] *)
Definition a2a_empty_skill : string :=
  cat ["{"; q "skill_id"; ": "; q ""; "}"].

(** An integer literal of [n] digits. *)
Fixpoint digits_run (n : nat) : string :=
  match n with
  | O => EmptyString
  | S n' => String "1"%char (digits_run n')
  end.

Definition huge_integer : string := digits_run (N.to_nat 4400).

(** A tools/call body whose name is an integer of 4400 digits. *)
Definition mcp_huge_name : string :=
  cat ["{"; q "method"; ": "; q "tools/call"; ", "; q "params"; ": {";
       q "name"; ": "; huge_integer; "}}"].

(** A body whose skill_id is an integer of 4400 digits. *)
Definition a2a_huge_skill : string :=
  cat ["{"; q "skill_id"; ": "; huge_integer; "}"].

(** A request of the tests: [method path] with the given body. *)
Definition request (method path : string) (body : Middleware.bytes)
  : Middleware.Request :=
  {| Middleware.method := method;
     Middleware.url_path := path;
     Middleware.body := Ok body;
     Middleware.header := fun _ => None;
     Middleware.client := Some "testclient" |}.

Definition response_ok (body : Middleware.bytes) : Middleware.Response :=
  {| Middleware.status_code := 200;
     Middleware.chunks := [Middleware.ChunkBytes body];
     Middleware.iter_error := None;
     Middleware.headers := [];
     Middleware.media_type := Some "application/json" |}.

Definition env : Middleware.Env :=
  {| Middleware.start_time := 0;
     Middleware.end_time := 1 # 1000;
     Middleware.uuid4 := "00000000-0000-4000-8000-000000000000";
     Middleware.utcnow_isoformat := "2026-01-01T00:00:00" |}.

(** A body of [n] bytes, each the letter [a]. *)
Definition body_of_size (n : N) : Middleware.bytes :=
  List.repeat Byte.x61 (N.to_nat n).

(** Modelled from the spec: the validation of [RequestLogEntry]
    ([gt8004/types.py]), [protocol (one of null, mcp, a2a: invalid values
    rejected at construction)] and [tool_name (optional string)]. *)
Definition validate (entry : Middleware.RequestLogEntry) : bool :=
  match Middleware.protocol entry with
  | None => true
  | Some p => String.eqb p "mcp" || String.eqb p "a2a"
  end
  && is_opt_str (Middleware.tool_name entry).

(** [dict(headers)] on a list of pairs: one value for each name, the last
    one given, at the place of the first. *)
Fixpoint set_header (k v : string) (d : list (string * string))
  : list (string * string) :=
  match d with
  | [] => [(k, v)]
  | (k', v') :: rest =>
      if String.eqb k' k then (k, v) :: rest
      else (k', v') :: set_header k v rest
  end.

Definition dict_of (headers : list (string * string))
  : list (string * string) :=
  fold_left (fun d kv => set_header (fst kv) (snd kv) d) headers [].

Definition decimal (n : nat) : string :=
  NilEmpty.string_of_uint (Nat.to_uint n).

(** A headers constructor for the examples: it keeps the mapping it is given
    and adds the content length when the mapping has none. *)
Definition init_headers (headers : list (string * string))
    (raw : Middleware.bytes) (status : Z) (media_type : option string)
  : list (string * string) :=
  let kept := dict_of headers in
  if existsb (fun kv => String.eqb (fst kv) "content-length") kept then kept
  else kept ++ [("content-length", decimal (List.length raw))].

(** The logger of the tests, a mock whose [log] returns. *)
Definition logger_log (entry : Middleware.RequestLogEntry) : result unit :=
  Ok tt.

(** A body that starts with [text] and is padded with spaces to [n] bytes
    more. *)
Definition padded_body (text : string) (n : N) : Middleware.bytes :=
  list_byte_of_string text ++ List.repeat Byte.x20 (N.to_nat n).

(** A request whose body cannot be read. *)
Definition request_unreadable (method path : string) : Middleware.Request :=
  {| Middleware.method := method;
     Middleware.url_path := path;
     Middleware.body := Raise (OtherError "ClientDisconnect");
     Middleware.header := fun _ => None;
     Middleware.client := None |}.

(** A request with a user agent and a content type, no referer. *)
Definition request_with_headers (method path : string)
    (body : Middleware.bytes) : Middleware.Request :=
  {| Middleware.method := method;
     Middleware.url_path := path;
     Middleware.body := Ok body;
     Middleware.header := fun k =>
       if String.eqb k "user-agent" then Some "testclient"
       else if String.eqb k "content-type" then Some "application/json"
       else None;
     Middleware.client := Some "testclient" |}.

(** A streaming response of two chunks, one [str] and one [bytes]. *)
Definition response_streamed : Middleware.Response :=
  {| Middleware.status_code := 201;
     Middleware.chunks :=
       [Middleware.ChunkStr "hel"; Middleware.ChunkBytes (body_of_size 2)];
     Middleware.iter_error := None;
     Middleware.headers := [("content-type", "text/plain")];
     Middleware.media_type := Some "text/plain" |}.

(** A streaming response whose iterator raises after its first chunk. *)
Definition response_broken : Middleware.Response :=
  {| Middleware.status_code := 200;
     Middleware.chunks := [Middleware.ChunkBytes (body_of_size 2)];
     Middleware.iter_error := Some (OtherError "RuntimeError");
     Middleware.headers := [];
     Middleware.media_type := None |}.

(** A decoder for bodies of ASCII text, on which it is UTF-8 decoding. *)
Definition decode_ascii (b : Middleware.bytes) : string :=
  string_of_list_byte b.

(** [_make_entry(request_id)] of [tests/test_transport.py]. *)
Definition _make_entry (request_id : string) : Middleware.RequestLogEntry :=
  {| Middleware.request_id := request_id;
     Middleware.entry_method := "GET";
     Middleware.path := "/test";
     Middleware.entry_status_code := 200;
     Middleware.response_ms := 5;
     Middleware.tool_name := PyNone;
     Middleware.protocol := None;
     Middleware.request_body := None;
     Middleware.request_body_size := 0;
     Middleware.response_body := None;
     Middleware.response_body_size := 0;
     Middleware.entry_headers := None;
     Middleware.ip_address := None;
     Middleware.timestamp := "2026-01-01T00:00:00Z" |}.

Definition r1 : Middleware.RequestLogEntry := _make_entry "r1".
Definition r2 : Middleware.RequestLogEntry := _make_entry "r2".

Definition test_config : Transport.Config :=
  {| Transport.ingest_url := "http://x/ingest";
     Transport.api_key := "k";
     Transport.agent_id := "a" |}.

(** The transport of the tests: default settings, the given buffer and
    count of consecutive failures. *)
Definition transport (buffer : list Middleware.RequestLogEntry)
    (failures : Z) : Transport.TransportState :=
  {| Transport.config := test_config;
     Transport.buffer := buffer;
     Transport.batch_size := 50;
     Transport.flush_interval := 5;
     Transport.consecutive_failures := failures;
     Transport.circuit_breaker_until := None;
     Transport.timer_running := false;
     Transport.client_closed := false |}.

(** A network on which every request gets the same reply. *)
Definition network (r : Transport.reply) : Transport.Network :=
  {| Transport.replies := fun _ => r; Transport.posts := [] |}.

End Fixtures.

(* ================================================================= *)
(** * Properties *)

(** ** The reference decoder *)

#[export] Instance reference_decoder : JSONDecoder := {|
  json_loads := Json.loads;
  json_loads_empty := eq_refl
|}.

(** ** Strings *)

Section StrFacts.

Import Str.

Lemma split_not_nil (sep : ascii) (s : string) : split sep s <> [].
Proof.
  destruct s as [|a rest]; simpl; [discriminate|].
  destruct (Ascii.eqb a sep); [discriminate|].
  destruct (split sep rest); discriminate.
Qed.

Lemma is_empty_true (s : string) : is_empty s = true -> s = EmptyString.
Proof. destruct s; [reflexivity|discriminate]. Qed.

Lemma last_cons_not_nil (x : string) (l : list string) :
  l <> [] -> last_item (x :: l) = last_item l.
Proof. destruct l; [congruence|reflexivity]. Qed.

(** Appending a stripped character changes nothing of [rstrip]. *)
Lemma rstrip_app_char (chars : string) (c : ascii) :
  mem c chars = true ->
  forall s, rstrip chars (s ++ String c EmptyString)%string = rstrip chars s.
Proof.
  intros Hc s. induction s as [|a rest IH]; simpl.
  - now rewrite Hc.
  - now rewrite IH.
Qed.

(** After [rstrip], the last piece is empty only when nothing is left. *)
Lemma last_piece_of_rstrip (chars : string) (sep : ascii) :
  mem sep chars = true ->
  forall s, last_item (split sep (rstrip chars s)) = EmptyString ->
            rstrip chars s = EmptyString.
Proof.
  intros Hsep s. induction s as [|a rest IH]; simpl; [reflexivity|].
  destruct (mem a chars && is_empty (rstrip chars rest)) eqn:Hstrip;
    [reflexivity|].
  simpl. destruct (Ascii.eqb a sep) eqn:Ha.
  - rewrite last_cons_not_nil by apply split_not_nil.
    intros Hlast. apply IH in Hlast.
    apply Ascii.eqb_eq in Ha. subst a.
    rewrite Hsep, Hlast in Hstrip. discriminate.
  - pose proof (split_not_nil sep (rstrip chars rest)) as Hne.
    destruct (split sep (rstrip chars rest)) as [|piece pieces] eqn:Hsplit;
      [congruence|].
    destruct pieces as [|p ps]; [discriminate|].
    change (last_item (String a piece :: p :: ps))
      with (last_item (piece :: p :: ps)).
    intros Hlast. apply IH in Hlast.
    rewrite Hlast in Hsplit. discriminate.
Qed.

Lemma last_item_In (l : list string) : l <> [] -> In (last_item l) l.
Proof.
  intros Hne. destruct (exists_last Hne) as [l0 [a ->]].
  unfold last_item. rewrite last_last.
  apply in_or_app. right. left. reflexivity.
Qed.

Lemma last_filter (f : string -> bool) (l : list string) :
  f (last_item l) = true -> last_item (filter f l) = last_item l.
Proof.
  induction l as [|x l IH]; [reflexivity|].
  destruct l as [|y l'].
  - cbn. intros ->. reflexivity.
  - change (last_item (x :: y :: l')) with (last_item (y :: l')).
    intros H. specialize (IH H).
    change (filter f (x :: y :: l'))
      with (if f x then x :: filter f (y :: l') else filter f (y :: l')).
    destruct (f x); [|exact IH].
    rewrite last_cons_not_nil; [exact IH|].
    intros Hnil.
    assert (Hin : In (last_item (y :: l')) (filter f (y :: l'))).
    { apply filter_In. split; [apply last_item_In; discriminate|exact H]. }
    rewrite Hnil in Hin. destruct Hin.
Qed.

(** The last piece after [rstrip] is the last non-empty piece. *)
Lemma last_item_is_last_nonempty (p : string) :
  last_item (split slash (rstrip "/" p))
  = last_nonempty (split slash (rstrip "/" p)).
Proof.
  unfold last_nonempty.
  destruct (is_empty (last_item (split slash (rstrip "/" p)))) eqn:He.
  - apply is_empty_true in He.
    rewrite (last_piece_of_rstrip "/" slash eq_refl p He). reflexivity.
  - symmetry. apply last_filter. unfold nonempty. now rewrite He.
Qed.

End StrFacts.

(** ** Tool-name extraction *)

Section ExtractFacts.

Import Fixtures.

(** The cases of [tests/test_extract.py], run on the reference decoder. *)
Example test_valid_tools_call :
  _extract_mcp_tool_name (Some mcp_tools_call) = Ok (PyStr "search").
Proof. vm_compute. reflexivity. Qed.

Example test_different_method :
  _extract_mcp_tool_name (Some mcp_other_method) = Ok PyNone.
Proof. vm_compute. reflexivity. Qed.

Example test_missing_params :
  _extract_mcp_tool_name (Some mcp_missing_params) = Ok PyNone.
Proof. vm_compute. reflexivity. Qed.

Example test_none_empty_invalid_non_dict :
  _extract_mcp_tool_name None = Ok PyNone
  /\ _extract_mcp_tool_name (Some "") = Ok PyNone
  /\ _extract_mcp_tool_name (Some "not json") = Ok PyNone
  /\ _extract_mcp_tool_name (Some "[1, 2, 3]") = Ok PyNone.
Proof. vm_compute. repeat split. Qed.

Example test_skill_id_from_body :
  _extract_a2a_tool_name (Some a2a_translate) "/a2a/tasks"
  = Ok (PyStr "translate").
Proof. vm_compute. reflexivity. Qed.

Example test_fallback_to_path :
  _extract_a2a_tool_name None "/a2a/tasks/send" = Ok (PyStr "send")
  /\ _extract_a2a_tool_name None "/a2a/tasks/send/" = Ok (PyStr "send")
  /\ _extract_a2a_tool_name (Some a2a_no_skill) "/a2a/run" = Ok (PyStr "run")
  /\ _extract_a2a_tool_name (Some "bad json") "/api/search"
     = Ok (PyStr "search")
  /\ _extract_a2a_tool_name (Some "") "/tasks" = Ok (PyStr "tasks").
Proof. vm_compute. repeat split. Qed.

Example test_http_paths :
  _extract_http_tool_name "/api/search" = Ok (PyStr "search")
  /\ _extract_http_tool_name "/api/search/" = Ok (PyStr "search")
  /\ _extract_http_tool_name "/v1/api/tools/generate" = Ok (PyStr "generate")
  /\ _extract_http_tool_name "a//b//" = Ok (PyStr "b").
Proof. vm_compute. repeat split. Qed.

Example test_extract_tool_name :
  extract_tool_name (Some "mcp") (Some mcp_tools_call) "/mcp"
  = Ok (PyStr "search")
  /\ extract_tool_name (Some "a2a") (Some a2a_translate) "/a2a"
     = Ok (PyStr "translate")
  /\ extract_tool_name None None "/api/search" = Ok (PyStr "search")
  /\ extract_tool_name (Some "other") None "/api/search"
     = Ok (PyStr "search").
Proof. vm_compute. repeat split. Qed.

(** The extractor hands back whatever JSON value the name is: here the
    number 5. *)
Example mcp_numeric_name :
  _extract_mcp_tool_name (Some mcp_numeric_name) = Ok (PyInt 5).
Proof. vm_compute. reflexivity. Qed.

Context {decoder : JSONDecoder}.

Lemma http_is_str (path : string) :
  _extract_http_tool_name path
  = Ok (PyStr (Str.last_item (Str.split Str.slash (Str.rstrip "/" path)))).
Proof.
  unfold _extract_http_tool_name.
  pose proof (split_not_nil Str.slash (Str.rstrip "/" path)) as Hne.
  destruct (Str.split Str.slash (Str.rstrip "/" path)); [congruence|].
  reflexivity.
Qed.

Lemma a2a_fallback_is_http (path : string) :
  a2a_path_fallback path = _extract_http_tool_name path.
Proof. reflexivity. Qed.

(** C7. The HTTP extractor gives the same result for a path and for the path
    with one more trailing slash; its result is the last non-empty segment of
    the path stripped of its trailing slashes and split on the slash; for the
    root path it is the empty string. *)
Theorem extract_http_last_segment (p : string) :
  _extract_http_tool_name (p ++ "/")%string = _extract_http_tool_name p
  /\ _extract_http_tool_name p
     = Ok (PyStr (Str.last_nonempty
                    (Str.split Str.slash (Str.rstrip "/" p))))
  /\ _extract_http_tool_name "/" = Ok (PyStr "").
Proof.
  split; [|split].
  - unfold _extract_http_tool_name.
    now rewrite (rstrip_app_char "/" "/"%char eq_refl p).
  - rewrite http_is_str. now rewrite last_item_is_last_nonempty.
  - reflexivity.
Qed.

Lemma py_eq_str_true (v : pyval) (s : string) :
  py_eq_str v s = true -> v = PyStr s.
Proof.
  destruct v; simpl; try discriminate.
  intros H. apply String.eqb_eq in H. now subst.
Qed.

Lemma handled_caught (e : exn) :
  In e handled -> existsb (exn_eqb e) handled = true.
Proof.
  intros [<-|[<-|[<-|[]]]]; reflexivity.
Qed.

Lemma py_get_raises (obj : pyval) (key : string) (default : pyval) (e : exn) :
  py_get obj key default = Raise e -> e = AttributeError.
Proof.
  destruct obj; simpl; try congruence.
  destruct (dict_get d key); discriminate.
Qed.

Lemma mcp_returns_name (body : option string) (name : pyval) :
  mcp_tools_call_name body name -> _extract_mcp_tool_name body = Ok name.
Proof.
  intros (b & data & params & -> & Hload & Hm & Hp & Hn).
  unfold _extract_mcp_tool_name.
  destruct (String.eqb b "") eqn:Hb.
  - apply String.eqb_eq in Hb. subst b.
    rewrite json_loads_empty in Hload. discriminate.
  - rewrite Hload. simpl. rewrite Hm. simpl. rewrite Hp. simpl.
    rewrite Hn. reflexivity.
Qed.

Lemma mcp_returns_none (body : option string) :
  decodes_or_caught body ->
  (forall name, ~ mcp_tools_call_name body name) ->
  _extract_mcp_tool_name body = Ok PyNone.
Proof.
  intros Hcaught Hnot. unfold _extract_mcp_tool_name.
  destruct body as [b|]; [|reflexivity].
  destruct (String.eqb b "") eqn:Hb; [reflexivity|].
  destruct (json_loads b) as [data|e] eqn:Hload.
  - destruct data as [ | | | | |l|d]; try reflexivity.
    simpl.
    destruct (dict_get d "method") as [m|] eqn:Hm; [|reflexivity].
    simpl. destruct (py_eq_str m "tools/call") eqn:Heq; [|reflexivity].
    apply py_eq_str_true in Heq. subst m.
    destruct (dict_get d "params") as [ps|] eqn:Hp; [|reflexivity].
    simpl. destruct ps as [ | | | | |l|params]; try reflexivity.
    simpl. destruct (dict_get params "name") as [name|] eqn:Hn;
      [|reflexivity].
    exfalso. apply (Hnot name). exists b, d, params. auto.
  - cbv [bind try_except].
    now rewrite (handled_caught e (Hcaught e Hload)).
Qed.

Lemma a2a_returns_skill (body : option string) (path : string)
    (skill : pyval) :
  a2a_skill_id body skill -> truthy skill = true ->
  _extract_a2a_tool_name body path = Ok skill.
Proof.
  intros (b & data & -> & Hload & Hs) Ht.
  unfold _extract_a2a_tool_name.
  destruct (String.eqb b "") eqn:Hb.
  - apply String.eqb_eq in Hb. subst b.
    rewrite json_loads_empty in Hload. discriminate.
  - rewrite Hload. simpl. rewrite Hs. simpl. rewrite Ht. reflexivity.
Qed.

Lemma a2a_falls_back (body : option string) (path : string) :
  decodes_or_caught body ->
  (forall skill, a2a_skill_id body skill -> truthy skill = false) ->
  _extract_a2a_tool_name body path = _extract_http_tool_name path.
Proof.
  intros Hcaught Hfalsy. unfold _extract_a2a_tool_name.
  destruct body as [b|]; [|reflexivity].
  destruct (String.eqb b "") eqn:Hb; [reflexivity|].
  destruct (json_loads b) as [data|e] eqn:Hload.
  - destruct data as [ | | | | |l|d]; try reflexivity.
    simpl.
    destruct (dict_get d "skill_id") as [skill|] eqn:Hs; [|reflexivity].
    simpl. rewrite (Hfalsy skill); [reflexivity|].
    exists b, d. auto.
  - cbv [bind try_except].
    now rewrite (handled_caught e (Hcaught e Hload)).
Qed.

(** C6, amended. The A2A extractor returns the skill_id value when the body
    decodes to a JSON mapping that has a skill_id whose truth value is true
    (not None, false, zero, or an empty string, list or mapping); it returns
    the HTTP extraction of the path in every other case in which [json.loads]
    returns or raises an exception that the except clause lists: a None or
    empty body, a body that is not valid JSON, a JSON value that is no
    mapping, a skill_id that is absent or whose truth value is false. *)
Theorem extract_a2a_truthy_skill_id (body : option string) (path : string) :
  (forall skill, a2a_skill_id body skill -> truthy skill = true ->
                 _extract_a2a_tool_name body path = Ok skill)
  /\ (decodes_or_caught body ->
      (forall skill, a2a_skill_id body skill -> truthy skill = false) ->
      _extract_a2a_tool_name body path = _extract_http_tool_name path).
Proof.
  split.
  - intros skill Hskill Ht. now apply a2a_returns_skill.
  - intros Hcaught Hfalsy. now apply a2a_falls_back.
Qed.

(** An exception of [json.loads] that the except clause does not list leaves
    the MCP and the A2A extractor. *)
Lemma uncaught_exception_propagates (b : string) (e : exn) (path : string) :
  json_loads b = Raise e -> existsb (exn_eqb e) handled = false ->
  _extract_mcp_tool_name (Some b) = Raise e
  /\ _extract_a2a_tool_name (Some b) path = Raise e.
Proof.
  intros Hload Huncaught.
  unfold _extract_mcp_tool_name, _extract_a2a_tool_name.
  destruct (String.eqb b "") eqn:Hb.
  - apply String.eqb_eq in Hb. subst b.
    rewrite json_loads_empty in Hload. injection Hload as <-.
    discriminate.
  - rewrite Hload. cbv [bind try_except]. now rewrite Huncaught.
Qed.


End ExtractFacts.

(** C5. The failing input: a tools/call body whose name is an integer of 4400
    digits.  [json.loads] raises ValueError on it, which the except clause
    does not list, and the MCP extractor raises it in turn where the claim
    has it return a value. *)
Theorem extract_mcp_raises_on_huge_name :
  json_loads Fixtures.mcp_huge_name = Raise ValueError
  /\ existsb (exn_eqb ValueError) handled = false
  /\ _extract_mcp_tool_name (Some Fixtures.mcp_huge_name) = Raise ValueError.
Proof. vm_compute. repeat split. Qed.

(** C6 as first stated fails: the body [{"skill_id": ""}] decodes to a
    mapping whose skill_id is the empty string, which is not None, and the
    extractor returns the last segment of the path instead. *)
Lemma extract_a2a_empty_skill_id_counterexample :
  json_loads Fixtures.a2a_empty_skill = Ok (PyDict [("skill_id", PyStr "")])
  /\ dict_get [("skill_id", PyStr "")] "skill_id" = Some (PyStr "")
  /\ PyStr "" <> PyNone
  /\ _extract_a2a_tool_name (Some Fixtures.a2a_empty_skill) "/a2a/tasks"
     = Ok (PyStr "tasks")
  /\ Ok (PyStr "tasks") <> Ok (PyStr "").
Proof. vm_compute. repeat split; discriminate. Qed.

(** C6, amended, on the bodies of the tests. *)
Lemma extract_a2a_truthy_skill_id_witness :
  _extract_a2a_tool_name (Some Fixtures.a2a_translate) "/a2a/tasks"
  = Ok (PyStr "translate")
  /\ _extract_a2a_tool_name (Some Fixtures.a2a_empty_skill) "/a2a/tasks"
     = _extract_http_tool_name "/a2a/tasks".
Proof.
  split.
  - apply (proj1 (extract_a2a_truthy_skill_id
                    (Some Fixtures.a2a_translate) "/a2a/tasks"));
      [|reflexivity].
    exists Fixtures.a2a_translate,
      [("skill_id", PyStr "translate"); ("input", PyStr "hello")].
    repeat split; vm_compute; reflexivity.
  - apply (proj2 (extract_a2a_truthy_skill_id
                    (Some Fixtures.a2a_empty_skill) "/a2a/tasks")).
    + intros e Hload. vm_compute in Hload. discriminate.
    + intros skill (b & data & Hb & Hload & Hs).
      injection Hb as <-. vm_compute in Hload.
      injection Hload as <-. vm_compute in Hs.
      injection Hs as <-. reflexivity.
Defined.

(** C8. The failing inputs: a body that is an integer of 4400 digits, and a
    body whose skill_id is one.  [json.loads] raises ValueError on them,
    which the except clauses do not list, and the MCP and A2A extractors
    raise it in turn where the claim has them never raise. *)
Theorem extractors_raise_on_huge_integer :
  json_loads Fixtures.huge_integer = Raise ValueError
  /\ extract_tool_name (Some "mcp") (Some Fixtures.huge_integer) "/mcp"
     = Raise ValueError
  /\ extract_tool_name (Some "a2a") (Some Fixtures.a2a_huge_skill)
       "/a2a/tasks"
     = Raise ValueError.
Proof. vm_compute. repeat split. Qed.

(** ** The middleware *)

Section DispatchFacts.

Import Middleware.

Context {decoder : JSONDecoder}.
Variable decode : bytes -> string.
Variable init_headers :
  list (string * string) -> bytes -> Z -> option string ->
  list (string * string).
Variable validate : RequestLogEntry -> bool.
Variable logger_log : RequestLogEntry -> result unit.

(** What a call of [dispatch] that logs an entry has done. *)
Lemma dispatch_inv (env : Env) (logger_protocol : option string)
    (request : Request) (call_next : result Response)
    (entry : RequestLogEntry) :
  In entry
    (fst (dispatch decode init_headers validate logger_log env
            logger_protocol request call_next)) ->
  exists response0 response,
    call_next = Ok response0
    /\ capture_request decode request
       = Ok (request_body entry, request_body_size entry)
    /\ capture_response decode init_headers response0
       = Ok (response_body entry, response_body_size entry, response)
    /\ extract_tool_name logger_protocol (request_body entry)
         (url_path request) = Ok (tool_name entry)
    /\ validate entry = true.
Proof.
  unfold dispatch.
  destruct (capture_request decode request) as [[rb rs]|e]; [|intros []].
  destruct call_next as [response0|e]; [|intros []].
  destruct (capture_response decode init_headers response0)
    as [[[pb ps] r]|e] eqn:Hresp; [|intros []].
  unfold build_entry.
  destruct (extract_tool_name logger_protocol rb (url_path request))
    as [tn|e] eqn:Htn; simpl; [|intros []].
  unfold new_RequestLogEntry.
  match goal with |- context [validate ?f] =>
    destruct (validate f) eqn:Hvalid end; [|intros []].
  intros [<-|[]]. exists response0, r. rewrite Hresp. simpl. auto.
Qed.

Lemma capture_request_oversized (request : Request) (b : bytes) :
  has_body_method request = true ->
  body request = Ok b ->
  (_BODY_LIMIT < len b)%Z ->
  capture_request decode request = Ok (None, len b).
Proof.
  intros Hm Hb Hbig. unfold capture_request. rewrite Hm, Hb. simpl.
  destruct (len b <=? _BODY_LIMIT)%Z eqn:Hle; [|reflexivity].
  apply Z.leb_le in Hle. lia.
Qed.

Lemma capture_response_oversized (response0 : Response) (raw : bytes) :
  read_body response0 = Ok raw ->
  (_BODY_LIMIT < len raw)%Z ->
  exists response,
    capture_response decode init_headers response0
    = Ok (None, len raw, response).
Proof.
  intros Hr Hbig. unfold capture_response. rewrite Hr. simpl.
  destruct (len raw <=? _BODY_LIMIT)%Z eqn:Hle;
    [|eexists; reflexivity].
  apply Z.leb_le in Hle. lia.
Qed.

(** The captured body is never a part of the body: it is [None] or the
    decoding of all the bytes read. *)
Lemma capture_request_whole (request : Request) (text : option string)
    (size : Z) :
  capture_request decode request = Ok (text, size) ->
  text = None
  \/ exists b, body request = Ok b /\ text = Some (decode b)
               /\ size = len b.
Proof.
  unfold capture_request.
  destruct (has_body_method request); [|intros [= <- <-]; now left].
  destruct (body request) as [b|e]; simpl.
  - destruct (len b <=? _BODY_LIMIT)%Z; intros [= <- <-]; [|now left].
    right. now exists b.
  - destruct (is_exception e); [intros [= <- <-]; now left|discriminate].
Qed.

Lemma capture_response_whole (response0 response : Response)
    (text : option string) (size : Z) :
  capture_response decode init_headers response0
  = Ok (text, size, response) ->
  text = None
  \/ exists raw, read_body response0 = Ok raw /\ text = Some (decode raw)
                 /\ size = len raw.
Proof.
  unfold capture_response.
  destruct (read_body response0) as [raw|e]; simpl.
  - destruct (len raw <=? _BODY_LIMIT)%Z; intros [= <- <- <-]; [|now left].
    right. now exists raw.
  - destruct (is_exception e); [intros [= <- <- <-]; now left|discriminate].
Qed.

(** C9. In the entry [dispatch] logs, when the request body read, or the
    response body read, has more than 16384 bytes, the body field is None and
    the size field is the full length of the body; a body field is never a
    part of the body (it is None or the decoding of all of it). *)
Theorem oversized_body_is_dropped (env : Env)
    (logger_protocol : option string) (request : Request)
    (response0 : Response) (entry : RequestLogEntry) :
  In entry
    (fst (dispatch decode init_headers validate logger_log env
            logger_protocol request (Ok response0))) ->
  (forall b, has_body_method request = true -> body request = Ok b ->
             (_BODY_LIMIT < len b)%Z ->
             request_body entry = None /\ request_body_size entry = len b)
  /\ (forall raw, read_body response0 = Ok raw ->
                  (_BODY_LIMIT < len raw)%Z ->
                  response_body entry = None
                  /\ response_body_size entry = len raw)
  /\ (request_body entry = None
      \/ exists b, body request = Ok b
                   /\ request_body entry = Some (decode b))
  /\ (response_body entry = None
      \/ exists raw, read_body response0 = Ok raw
                     /\ response_body entry = Some (decode raw)).
Proof.
  intros Hlogged. apply dispatch_inv in Hlogged.
  destruct Hlogged as (r0 & r & [= <-] & Hreq & Hresp & _).
  split; [|split; [|split]].
  - intros b Hm Hb Hbig.
    rewrite (capture_request_oversized request b Hm Hb Hbig) in Hreq.
    split; congruence.
  - intros raw Hr Hbig.
    destruct (capture_response_oversized response0 raw Hr Hbig) as [r' Hc].
    rewrite Hc in Hresp. split; congruence.
  - destruct (capture_request_whole _ _ _ Hreq) as [Hn|(b & Hb & Hc & _)].
    + now left.
    + right. now exists b.
  - destruct (capture_response_whole _ _ _ _ Hresp)
      as [Hn|(raw & Hb & Hc & _)].
    + now left.
    + right. now exists raw.
Qed.

(** C10. [dispatch] reads the request body only when the method is POST, PUT
    or PATCH: for any other method the outcome of reading the body has no
    effect on what [dispatch] logs and returns, the entry logged has a None
    request body of size 0, and its tool name is what the extractors give
    for a None body. *)
Theorem request_body_only_for_post_put_patch (env : Env)
    (logger_protocol : option string) (request : Request)
    (call_next : result Response) :
  method request <> "POST" -> method request <> "PUT" ->
  method request <> "PATCH" ->
  (forall entry,
      In entry
        (fst (dispatch decode init_headers validate logger_log env
                logger_protocol request call_next)) ->
      request_body entry = None
      /\ request_body_size entry = 0%Z
      /\ extract_tool_name logger_protocol None (url_path request)
         = Ok (tool_name entry))
  /\ (forall b,
         dispatch decode init_headers validate logger_log env
           logger_protocol (with_body request b) call_next
         = dispatch decode init_headers validate logger_log env
             logger_protocol request call_next).
Proof.
  intros Hpost Hput Hpatch.
  assert (Hm : has_body_method request = false).
  { unfold has_body_method. simpl.
    apply String.eqb_neq in Hpost, Hput, Hpatch.
    now rewrite Hpost, Hput, Hpatch. }
  assert (Hc : capture_request decode request = Ok (None, 0%Z)).
  { unfold capture_request. now rewrite Hm. }
  split.
  - intros entry Hlogged. apply dispatch_inv in Hlogged.
    destruct Hlogged as (r0 & r & _ & Hreq & _ & Htool & _).
    rewrite Hc in Hreq. injection Hreq as Hb Hs.
    rewrite <- Hb in Htool. auto.
  - intros b. unfold dispatch.
    assert (Hc' : capture_request decode (with_body request b)
                  = Ok (None, 0%Z)).
    { unfold capture_request.
      change (has_body_method (with_body request b))
        with (has_body_method request).
      now rewrite Hm. }
    rewrite Hc, Hc'. reflexivity.
Qed.

End DispatchFacts.

(** ** The transport *)

Section TransportFacts.

Import Middleware Transport.

(** Runs a scenario: the goal asks for the state and network it ends in. *)
Ltac by_running :=
  lazymatch goal with
  | |- exists st' net', ?run = Ok (st', net') /\ _ =>
      let r := eval vm_compute in run in
      lazymatch r with
      | Ok (?st, ?net) =>
          exists st, net; split;
          [vm_compute; reflexivity | vm_compute; repeat split]
      end
  end.

(** The cases of [tests/test_transport.py]. *)
Example test_defaults :
  BatchTransport Fixtures.test_config None None
  = Ok (Fixtures.transport [] 0).
Proof. vm_compute. reflexivity. Qed.

Example test_config_error :
  BatchTransport Fixtures.test_config (Some 0%Z) None = Raise ConfigError
  /\ BatchTransport Fixtures.test_config None (Some 0%Q) = Raise ConfigError.
Proof. split; vm_compute; reflexivity. Qed.

Example test_flush_empty_buffer_is_noop :
  flush 0 (Fixtures.transport [] 0) (Fixtures.network (Status 200))
  = Ok (Fixtures.transport [] 0, Fixtures.network (Status 200)).
Proof. vm_compute. reflexivity. Qed.

Example test_circuit_breaker_skips_flush :
  let st := set_breaker (Fixtures.transport [] 0) (Some (60 # 1)) in
  let net := Fixtures.network (Status 200) in
  (p <- add 0 Fixtures.r1 st net ;; flush 0 (fst p) (snd p))
  = Ok (set_buffer st [Fixtures.r1], net).
Proof. vm_compute. reflexivity. Qed.

Example test_close_flushes_and_closes_client :
  exists st' net',
    (p <- add 0 Fixtures.r1 (Fixtures.transport [] 0)
            (Fixtures.network (Status 200)) ;;
     close 0 (fst p) (snd p)) = Ok (st', net')
    /\ posts net' = [make_post Fixtures.test_config [Fixtures.r1]]
    /\ buffer st' = [] /\ client_closed st' = true
    /\ timer_running st' = false.
Proof. by_running. Qed.

(** Five failing flushes of one entry, at times 0 to 4, then a sixth flush at
    time 5: five requests in all, the entry still buffered. *)
Example five_failures_then_no_send :
  let net := Fixtures.network NetworkFailure in
  let flush_at t p := p' <- p ;; flush t (fst p') (snd p') in
  exists st' net',
    flush_at (5 # 1)
      (flush_at (4 # 1) (flush_at (3 # 1) (flush_at (2 # 1) (flush_at (1 # 1)
         (flush_at 0 (Ok (Fixtures.transport [Fixtures.r1] 0, net)))))))
    = Ok (st', net')
    /\ List.length (posts net') = 5%nat
    /\ buffer st' = [Fixtures.r1]
    /\ consecutive_failures st' = 5%Z
    /\ circuit_breaker_until st' = Some ((4 # 1) + backoff_seconds)%Q.
Proof. cbv zeta. by_running. Qed.

Lemma Qltb_true (a b : Q) : Qltb a b = true <-> (a < b)%Q.
Proof.
  unfold Qltb. rewrite negb_true_iff.
  split.
  - intros H. apply Qnot_le_lt. intros Hle.
    apply Qle_bool_iff in Hle. congruence.
  - intros Hlt. destruct (Qle_bool b a) eqn:Hle; [|reflexivity].
    apply Qle_bool_iff in Hle. apply Qlt_not_le in Hlt. contradiction.
Qed.

Lemma Qltb_false (a b : Q) : Qltb a b = false <-> (b <= a)%Q.
Proof.
  unfold Qltb. rewrite negb_false_iff. apply Qle_bool_iff.
Qed.

Lemma breaker_open_before (now until : Q) (st : TransportState) :
  circuit_breaker_until st = Some until -> (now < until)%Q ->
  breaker_open now st = true.
Proof.
  intros Hu Hlt. unfold breaker_open. rewrite Hu. now apply Qltb_true.
Qed.

(** An open breaker makes [flush] do nothing at all. *)
Lemma flush_breaker_open (now : Q) (late : list Entry) (st : TransportState)
    (net : Network) :
  breaker_open now st = true -> flush_during now late st net = Ok (st, net).
Proof.
  intros Hopen. unfold flush_during, flush_begin. rewrite Hopen.
  destruct (buffer st); reflexivity.
Qed.

Lemma flush_empty (now : Q) (late : list Entry) (st : TransportState)
    (net : Network) :
  buffer st = [] -> flush_during now late st net = Ok (st, net).
Proof.
  intros He. unfold flush_during, flush_begin. now rewrite He.
Qed.

(** A flush that goes through: one request, then the bookkeeping. *)
Lemma flush_attempt (now : Q) (late : list Entry) (st : TransportState)
    (net : Network) :
  buffer st <> [] -> breaker_open now st = false ->
  flush_during now late st net
  = Ok (flush_finish now (is_2xx (next_reply net)) (buffer st)
          (set_buffer st late),
        {| replies := replies net;
           posts := posts net ++ [make_post (config st) (buffer st)] |}).
Proof.
  intros Hne Hclosed. unfold flush_during, flush_begin. rewrite Hclosed.
  destruct (buffer st) as [|e es] eqn:Hb; [congruence|].
  unfold send. destruct (is_2xx (next_reply net)); reflexivity.
Qed.

Lemma flush_during_returns (now : Q) (late : list Entry)
    (st : TransportState) (net : Network) :
  returns (flush_during now late st net).
Proof.
  destruct (buffer st) as [|e es] eqn:Hb.
  - rewrite flush_empty by exact Hb. eexists. reflexivity.
  - destruct (breaker_open now st) eqn:Ho.
    + rewrite flush_breaker_open by exact Ho. eexists. reflexivity.
    + rewrite flush_attempt by (congruence || exact Ho).
      eexists. reflexivity.
Qed.

Lemma add_returns (now : Q) (entry : Entry) (st : TransportState)
    (net : Network) :
  returns (add now entry st net).
Proof.
  unfold add. destruct (_ <=? _)%Z; [apply flush_during_returns|].
  eexists. reflexivity.
Qed.

Lemma close_returns (now : Q) (st : TransportState) (net : Network) :
  returns (close now st net).
Proof.
  unfold close, flush.
  destruct (flush_during_returns now [] (set_timer st false) net) as [p ->].
  eexists. reflexivity.
Qed.

Lemma flush_finish_failed (now : Q) (batch : list Entry)
    (st : TransportState) :
  buffer (flush_finish now false batch st) = batch ++ buffer st
  /\ consecutive_failures (flush_finish now false batch st)
     = (consecutive_failures st + 1)%Z
  /\ config (flush_finish now false batch st) = config st
  /\ batch_size (flush_finish now false batch st) = batch_size st.
Proof.
  unfold flush_finish.
  destruct (failure_threshold <=? consecutive_failures st + 1)%Z;
    repeat split.
Qed.

Lemma flush_finish_sent (now : Q) (batch : list Entry)
    (st : TransportState) :
  buffer (flush_finish now true batch st) = buffer st
  /\ consecutive_failures (flush_finish now true batch st) = 0%Z
  /\ circuit_breaker_until (flush_finish now true batch st)
     = circuit_breaker_until st
  /\ config (flush_finish now true batch st) = config st
  /\ batch_size (flush_finish now true batch st) = batch_size st.
Proof. repeat split. Qed.

(** C4. A call of [flush] with a non-empty buffer and a closed breaker makes
    exactly one request, whatever its outcome; when the request fails the
    entries are back in the buffer and it is a later call of [flush] that
    sends them again, with one request of its own. *)
Theorem flush_sends_exactly_once (now : Q) (st : TransportState)
    (net : Network) :
  buffer st <> [] -> breaker_open now st = false ->
  exists st' net',
    flush now st net = Ok (st', net')
    /\ posts net' = posts net ++ [make_post (config st) (buffer st)]
    /\ (is_2xx (next_reply net) = false ->
        buffer st' = buffer st
        /\ forall later, breaker_open later st' = false ->
             exists st'' net'',
               flush later st' net' = Ok (st'', net'')
               /\ posts net''
                  = posts net ++ [make_post (config st) (buffer st)]
                              ++ [make_post (config st) (buffer st)]).
Proof.
  intros Hne Hclosed. unfold flush.
  rewrite flush_attempt by assumption.
  eexists. eexists. split; [reflexivity|]. split; [reflexivity|].
  intros Hfail. rewrite Hfail.
  destruct (flush_finish_failed now (buffer st) (set_buffer st []))
    as (Hb & _ & Hc & _).
  change (buffer (set_buffer st [])) with (@nil Entry) in Hb.
  change (config (set_buffer st [])) with (config st) in Hc.
  rewrite app_nil_r in Hb.
  split; [exact Hb|].
  intros later Hlater.
  rewrite flush_attempt; [|now rewrite Hb|exact Hlater].
  eexists. eexists. split; [reflexivity|].
  cbn [posts]. rewrite Hb, Hc. now rewrite <- app_assoc.
Qed.

(** C2. When the send of a flush fails (a network error or a status outside
    2xx), the entries of the batch are at the head of the buffer again, ahead
    of the entries added since the snapshot, and the count of consecutive
    failures is one more; [add], [log] and [close] return all the same. *)
Theorem failed_send_requeues (now : Q) (late : list Entry)
    (st : TransportState) (net : Network) :
  buffer st <> [] -> breaker_open now st = false ->
  is_2xx (next_reply net) = false ->
  (exists st' net',
      flush_during now late st net = Ok (st', net')
      /\ buffer st' = buffer st ++ late
      /\ consecutive_failures st' = (consecutive_failures st + 1)%Z)
  /\ (forall t entry st0 net0,
         returns (add t entry st0 net0)
         /\ returns (log t entry st0 net0)
         /\ returns (close t st0 net0)).
Proof.
  intros Hne Hclosed Hfail. split.
  - rewrite flush_attempt by assumption. rewrite Hfail.
    eexists. eexists. split; [reflexivity|].
    destruct (flush_finish_failed now (buffer st) (set_buffer st late))
      as (Hb & Hf & _).
    split; [exact Hb|exact Hf].
  - intros t entry st0 net0. repeat split.
    + apply add_returns.
    + apply add_returns.
    + apply close_returns.
Qed.

(** C3. When a failed send brings the count of consecutive failures to 5 (or
    more), [circuit_breaker_until] is set to a time after the current one;
    and a call of [flush] at a time before [circuit_breaker_until] makes no
    request and leaves the buffer, and the whole state, as they were. *)
Theorem breaker_opens_after_five_failures (now : Q) (late : list Entry)
    (st : TransportState) (net : Network) :
  buffer st <> [] -> breaker_open now st = false ->
  is_2xx (next_reply net) = false ->
  (5 <= consecutive_failures st + 1)%Z ->
  (exists st' net' until,
      flush_during now late st net = Ok (st', net')
      /\ circuit_breaker_until st' = Some until
      /\ (now < until)%Q
      /\ forall t, (t < until)%Q -> flush t st' net' = Ok (st', net'))
  /\ (forall t until st0 net0,
         circuit_breaker_until st0 = Some until -> (t < until)%Q ->
         flush t st0 net0 = Ok (st0, net0)).
Proof.
  intros Hne Hclosed Hfail Hfive.
  assert (Hno : forall t until st0 net0,
             circuit_breaker_until st0 = Some until -> (t < until)%Q ->
             flush t st0 net0 = Ok (st0, net0)).
  { intros t until st0 net0 Hu Hlt. apply flush_breaker_open.
    exact (breaker_open_before t until st0 Hu Hlt). }
  split; [|exact Hno].
  rewrite flush_attempt by assumption. rewrite Hfail.
  assert (Hu : circuit_breaker_until
                 (flush_finish now false (buffer st) (set_buffer st late))
               = Some (now + backoff_seconds)%Q).
  { unfold flush_finish. simpl.
    destruct (failure_threshold <=? consecutive_failures st + 1)%Z eqn:Hle;
      [reflexivity|].
    apply Z.leb_gt in Hle. unfold failure_threshold in Hle. lia. }
  eexists. eexists. exists (now + backoff_seconds)%Q.
  split; [reflexivity|]. split; [exact Hu|].
  split.
  - unfold backoff_seconds. lra.
  - intros t Hlt. exact (Hno t _ _ _ Hu Hlt).
Qed.

Lemma buffer_len_add (st : TransportState) (entry : Entry) :
  Z.of_nat (List.length (buffer st ++ [entry]))
  = (Z.of_nat (List.length (buffer st)) + 1)%Z.
Proof. rewrite length_app. simpl. lia. Qed.

Lemma closed_when_short_closed (st : TransportState) (t0 now : Q) :
  closed_when_short st t0 -> (t0 <= now)%Q ->
  (Z.of_nat (List.length (buffer st)) < batch_size st)%Z ->
  forall b, breaker_open now (set_buffer st b) = false.
Proof.
  intros Hinv Hle Hshort b. unfold breaker_open. simpl.
  destruct (circuit_breaker_until st) as [until|] eqn:Hu; [|reflexivity].
  apply Qltb_false. apply Qle_trans with t0; [|exact Hle].
  now apply Hinv.
Qed.

(** One [add] at a time [now] not before [t0]: it keeps the invariant, sends
    nothing below the batch size and sends the whole buffer once on reaching
    it. *)
Lemma add_step (now t0 : Q) (entry : Entry) (st : TransportState)
    (net : Network) :
  closed_when_short st t0 -> (t0 <= now)%Q ->
  exists st' net',
    add now entry st net = Ok (st', net')
    /\ closed_when_short st' now
    /\ batch_size st' = batch_size st
    /\ config st' = config st
    /\ ((Z.of_nat (List.length (buffer st)) + 1 < batch_size st)%Z ->
        posts net' = posts net /\ buffer st' = buffer st ++ [entry])
    /\ ((Z.of_nat (List.length (buffer st)) + 1 = batch_size st)%Z ->
        posts net'
        = posts net ++ [make_post (config st) (buffer st ++ [entry])]
        /\ (is_2xx (next_reply net) = true ->
            buffer st' = [] /\ consecutive_failures st' = 0%Z)).
Proof.
  intros Hinv Hle. unfold add.
  set (st1 := set_buffer st (buffer st ++ [entry])).
  assert (Hlen : Z.of_nat (List.length (buffer st1))
                 = (Z.of_nat (List.length (buffer st)) + 1)%Z)
    by apply buffer_len_add.
  assert (Hsize : batch_size st1 = batch_size st) by reflexivity.
  assert (Hcfg : config st1 = config st) by reflexivity.
  assert (Hbuf : buffer st1 = buffer st ++ [entry]) by reflexivity.
  assert (Hne : buffer st1 <> []).
  { rewrite Hbuf. destruct (buffer st); discriminate. }
  assert (Hclosed : (Z.of_nat (List.length (buffer st)) < batch_size st)%Z ->
                    breaker_open now st1 = false).
  { intros Hshort.
    exact (closed_when_short_closed st t0 now Hinv Hle Hshort _). }
  destruct (batch_size st1 <=? Z.of_nat (List.length (buffer st1)))%Z
    eqn:Hfull.
  - apply Z.leb_le in Hfull. unfold flush.
    destruct (breaker_open now st1) eqn:Hopen.
    + rewrite flush_breaker_open by exact Hopen.
      exists st1, net. split; [reflexivity|].
      split; [intros Hshort; lia|].
      split; [exact Hsize|]. split; [exact Hcfg|].
      split; [intros Hlt; lia|].
      intros Heq. assert (Hc : true = false) by (apply Hclosed; lia).
      discriminate Hc.
    + rewrite flush_attempt by assumption.
      eexists. eexists. split; [reflexivity|].
      rewrite Hcfg, Hbuf.
      destruct (is_2xx (next_reply net)) eqn:Hreply.
      * split.
        { intros _ until Hu.
          unfold breaker_open in Hopen.
          change (circuit_breaker_until st1) with (circuit_breaker_until st)
            in Hopen.
          change (circuit_breaker_until st = Some until) in Hu.
          rewrite Hu in Hopen. now apply Qltb_false. }
        split; [reflexivity|]. split; [reflexivity|].
        split; [intros Hlt; lia|].
        intros _. split; [reflexivity|]. intros _. split; reflexivity.
      * destruct (flush_finish_failed now (buffer st ++ [entry])
                    (set_buffer st1 []))
          as (Hb & Hf & Hc & Hs).
        change (buffer (set_buffer st1 [])) with (@nil Entry) in Hb.
        rewrite app_nil_r in Hb.
        split.
        { intros Hshort. rewrite Hb, Hs in Hshort.
          change (batch_size (set_buffer st1 [])) with (batch_size st1)
            in Hshort.
          rewrite <- Hbuf in Hshort. lia. }
        split; [exact Hs|]. split; [exact Hc|].
        split; [intros Hlt; lia|].
        intros _. split; [reflexivity|discriminate].
  - apply Z.leb_gt in Hfull.
    exists st1, net. split; [reflexivity|].
    split.
    { intros _ until Hu. apply Qle_trans with t0; [|exact Hle].
      apply Hinv; [lia|exact Hu]. }
    split; [exact Hsize|]. split; [exact Hcfg|].
    split; [intros _; split; reflexivity|].
    intros Heq. lia.
Qed.

Lemma last_cons_default {A : Type} (l : list A) :
  forall a d, List.last (a :: l) d = List.last l a.
Proof.
  induction l as [|b l IH]; intros a d; [reflexivity|].
  change (List.last (a :: b :: l) d) with (List.last (b :: l) d).
  rewrite (IH b d), (IH b a). reflexivity.
Qed.

Lemma last_time_cons (t0 now : Q) (entry : Entry)
    (rest : list (Q * Entry)) :
  last_time t0 ((now, entry) :: rest) = last_time now rest.
Proof. unfold last_time. simpl List.map. apply last_cons_default. Qed.

Lemma add_all_inv (calls : list (Q * Entry)) :
  forall (t0 : Q) (st : TransportState) (net : Network),
    closed_when_short st t0 ->
    nondecreasing (t0 :: List.map fst calls) ->
    exists st' net',
      add_all calls st net = Ok (st', net')
      /\ closed_when_short st' (last_time t0 calls)
      /\ batch_size st' = batch_size st
      /\ config st' = config st.
Proof.
  induction calls as [|[now entry] rest IH]; intros t0 st net Hinv Hmono.
  - exists st, net. repeat split. exact Hinv.
  - destruct Hmono as [Hle Hrest]. simpl in Hle.
    destruct (add_step now t0 entry st net Hinv Hle)
      as (st1 & net1 & Hadd & Hinv1 & Hs1 & Hc1 & _).
    destruct (IH now st1 net1 Hinv1 Hrest)
      as (st2 & net2 & Hall & Hinv2 & Hs2 & Hc2).
    exists st2, net2. simpl. rewrite Hadd. simpl.
    split; [exact Hall|].
    split; [now rewrite last_time_cons|].
    split; congruence.
Qed.

Lemma nondecreasing_app (ts : list Q) (t0 t : Q) :
  nondecreasing (t0 :: ts ++ [t]) ->
  nondecreasing (t0 :: ts) /\ (List.last ts t0 <= t)%Q.
Proof.
  revert t0. induction ts as [|a ts IH]; intros t0 H.
  - simpl in *. tauto.
  - destruct H as [Hle Hrest]. simpl in Hle.
    destruct (IH a Hrest) as [Hmono Hlast].
    split; [split; assumption|].
    rewrite last_cons_default. exact Hlast.
Qed.

Lemma new_transport_fresh (cfg : Config) (size : option Z)
    (interval : option Q) (st0 : TransportState) :
  BatchTransport cfg size interval = Ok st0 ->
  buffer st0 = [] /\ circuit_breaker_until st0 = None
  /\ config st0 = cfg /\ consecutive_failures st0 = 0%Z
  /\ (1 <= batch_size st0)%Z
  /\ batch_size st0 = match size with Some n => n | None => 50%Z end.
Proof.
  unfold BatchTransport.
  destruct (_ <=? 0)%Z eqn:Hsize; simpl; [discriminate|].
  destruct (Qle_bool _ 0); [discriminate|].
  intros [= <-]. simpl. apply Z.leb_gt in Hsize. repeat split. lia.
Qed.

(** C1. On a transport constructed with batch size n (at least 1), after any
    sequence of [add] calls, an [add] that leaves the buffer shorter than n
    sends nothing, and the [add] that brings the buffer to n entries makes
    exactly one request, of all the buffered entries; when that request
    succeeds the buffer is empty and the count of consecutive failures is
    0.  The times of the calls are in order. *)
Theorem add_flushes_at_batch_size (cfg : Config) (size : option Z)
    (interval : option Q) (st0 : TransportState) (net0 : Network)
    (calls : list (Q * Entry)) (t0 now : Q) (entry : Entry) :
  BatchTransport cfg size interval = Ok st0 ->
  nondecreasing (t0 :: List.map fst calls ++ [now]) ->
  exists st net st' net',
    add_all calls st0 net0 = Ok (st, net)
    /\ add now entry st net = Ok (st', net')
    /\ ((Z.of_nat (List.length (buffer st)) + 1 < batch_size st0)%Z ->
        posts net' = posts net /\ buffer st' = buffer st ++ [entry])
    /\ ((Z.of_nat (List.length (buffer st)) + 1 = batch_size st0)%Z ->
        posts net' = posts net ++ [make_post cfg (buffer st ++ [entry])]
        /\ (is_2xx (next_reply net) = true ->
            buffer st' = [] /\ consecutive_failures st' = 0%Z)).
Proof.
  intros Hnew Hmono.
  destruct (new_transport_fresh cfg size interval st0 Hnew)
    as (Hb & Hu & Hc & _).
  assert (Hinv0 : closed_when_short st0 t0).
  { intros _ until Hsome. congruence. }
  destruct (nondecreasing_app _ _ _ Hmono) as [Hcalls Hlast].
  destruct (add_all_inv calls t0 st0 net0 Hinv0 Hcalls)
    as (st & net & Hall & Hinv & Hs & Hcfg).
  destruct (add_step now (last_time t0 calls) entry st net Hinv Hlast)
    as (st' & net' & Hadd & _ & _ & _ & Hbelow & Hat).
  exists st, net, st', net'.
  rewrite Hs, Hcfg, Hc in *.
  repeat split; try assumption.
  - now apply Hbelow.
  - now apply Hbelow.
  - now apply Hat.
  - now apply Hat.
  - now apply Hat.
Qed.

End TransportFacts.

(** ** The properties on the inputs of the tests *)

Section Witnesses.

Import Middleware Transport Fixtures.

(** [test_auto_flush_at_batch_size]: with batch size 2 the first [add] sends
    nothing and the second sends both entries in one request. *)
Lemma add_flushes_at_batch_size_witness :
  exists st0 st net st' net',
    BatchTransport test_config (Some 2%Z) None = Ok st0
    /\ add_all [(0, r1)] st0 (network (Status 200)) = Ok (st, net)
    /\ add 1 r2 st net = Ok (st', net')
    /\ buffer st = [r1] /\ posts net = []
    /\ posts net' = [make_post test_config [r1; r2]]
    /\ buffer st' = [] /\ consecutive_failures st' = 0%Z.
Proof.
  destruct (add_flushes_at_batch_size test_config (Some 2%Z) None _
              (network (Status 200)) [(0, r1)] 0 1 r2 eq_refl)
    as (st & net & st' & net' & Hall & Hadd & _ & Hat).
  { vm_compute. repeat split; discriminate. }
  eexists. exists st, net, st', net'.
  split; [reflexivity|]. split; [exact Hall|]. split; [exact Hadd|].
  vm_compute in Hall. injection Hall as <- <-.
  destruct Hat as [Hposts Hok]; [reflexivity|].
  destruct Hok as [Hb Hf]; [reflexivity|].
  repeat split; assumption.
Defined.

(** [test_requeues_on_failure], with an entry added during the send. *)
Lemma failed_send_requeues_witness :
  exists st' net',
    flush_during 0 [r2] (transport [r1] 0) (network NetworkFailure)
    = Ok (st', net')
    /\ buffer st' = [r1; r2]
    /\ consecutive_failures st' = 1%Z.
Proof.
  destruct (failed_send_requeues 0 [r2] (transport [r1] 0)
              (network NetworkFailure))
    as [(st' & net' & Hflush & Hb & Hf) _];
    [discriminate|reflexivity|reflexivity|].
  exists st', net'. repeat split; assumption.
Defined.

(** [test_circuit_breaker_activates_after_5_failures]: the fifth failure, at
    time 100, opens the breaker; a flush at time 120 does nothing. *)
Lemma breaker_opens_after_five_failures_witness :
  exists st' net' until,
    flush (100 # 1) (transport [r1] 4) (network (Status 503))
    = Ok (st', net')
    /\ circuit_breaker_until st' = Some until
    /\ (100 # 1 < until)%Q
    /\ flush (120 # 1) st' net' = Ok (st', net').
Proof.
  destruct (breaker_opens_after_five_failures (100 # 1) []
              (transport [r1] 4) (network (Status 503)))
    as [(st' & net' & until & Hflush & Hu & Hlt & Hnoop) _];
    [discriminate|reflexivity|reflexivity|vm_compute; discriminate|].
  exists st', net', until.
  split; [exact Hflush|]. split; [exact Hu|]. split; [exact Hlt|].
  apply Hnoop.
  vm_compute in Hflush. injection Hflush as <- <-.
  injection Hu as <-. reflexivity.
Defined.

(** [test_flush_sends_batch]: one flush, one request. *)
Lemma flush_sends_exactly_once_witness :
  exists st' net',
    flush 0 (transport [r1] 0) (network (Status 200)) = Ok (st', net')
    /\ posts net' = [make_post test_config [r1]].
Proof.
  destruct (flush_sends_exactly_once 0 (transport [r1] 0)
              (network (Status 200)))
    as (st' & net' & Hflush & Hposts & _);
    [discriminate|reflexivity|].
  exists st', net'. split; assumption.
Defined.

(** A POST whose body and whose response body have 16385 bytes. *)
Lemma oversized_body_is_dropped_witness :
  exists entry,
    fst (dispatch decode_ascii init_headers validate logger_log env None
           (request "POST" "/api/search" (body_of_size 16385))
           (Ok (response_ok (body_of_size 16385))))
    = [entry]
    /\ request_body entry = None
    /\ request_body_size entry = 16385%Z
    /\ response_body entry = None
    /\ response_body_size entry = 16385%Z.
Proof.
  set (logged := fst (dispatch decode_ascii init_headers validate logger_log env None
                        (request "POST" "/api/search" (body_of_size 16385))
                        (Ok (response_ok (body_of_size 16385))))).
  assert (Hlogged : exists entry, logged = [entry])
    by (vm_compute; eexists; reflexivity).
  destruct Hlogged as [entry Hlogged].
  exists entry. split; [exact Hlogged|].
  destruct (oversized_body_is_dropped decode_ascii init_headers validate logger_log env
              None (request "POST" "/api/search" (body_of_size 16385))
              (response_ok (body_of_size 16385)) entry)
    as (Hreq & Hresp & _).
  { change (In entry logged). rewrite Hlogged. left. reflexivity. }
  destruct (Hreq (body_of_size 16385)) as [Hb Hs];
    [reflexivity|reflexivity|vm_compute; reflexivity|].
  destruct (Hresp (body_of_size 16385)) as [Hb' Hs'];
    [vm_compute; reflexivity|vm_compute; reflexivity|].
  repeat split; assumption.
Defined.

(** A GET that carries a body with a skill_id: the body is not read, and the
    A2A extractor falls back to the path. *)
Lemma request_body_only_for_post_put_patch_witness :
  exists entry,
    fst (dispatch decode_ascii init_headers validate logger_log env (Some "a2a")
           (request "GET" "/a2a/tasks" (list_byte_of_string a2a_translate))
           (Ok (response_ok (body_of_size 2))))
    = [entry]
    /\ request_body entry = None
    /\ request_body_size entry = 0%Z
    /\ tool_name entry = PyStr "tasks".
Proof.
  set (logged := fst (dispatch decode_ascii init_headers validate logger_log env
                        (Some "a2a")
                        (request "GET" "/a2a/tasks"
                           (list_byte_of_string a2a_translate))
                        (Ok (response_ok (body_of_size 2))))).
  assert (Hlogged : exists entry, logged = [entry])
    by (vm_compute; eexists; reflexivity).
  destruct Hlogged as [entry Hlogged].
  exists entry. split; [exact Hlogged|].
  destruct (request_body_only_for_post_put_patch decode_ascii init_headers validate
              logger_log env (Some "a2a")
              (request "GET" "/a2a/tasks" (list_byte_of_string a2a_translate))
              (Ok (response_ok (body_of_size 2))))
    as [Hentry _]; [discriminate|discriminate|discriminate|].
  destruct (Hentry entry) as (Hb & Hs & Ht).
  { change (In entry logged). rewrite Hlogged. left. reflexivity. }
  split; [exact Hb|]. split; [exact Hs|].
  vm_compute in Ht. injection Ht as Ht. symmetry. exact Ht.
Defined.

End Witnesses.

(* ================================================================= *)
(** * Further properties of [gt8004/middleware/fastapi.py] *)

(** ** The path segment of the HTTP and A2A extractors *)

Section SegmentFacts.

Import Str.

Lemma split_no_sep (sep : ascii) (s : string) :
  mem sep s = false -> split sep s = [s].
Proof.
  induction s as [|a rest IH]; simpl; [reflexivity|].
  destruct (Ascii.eqb a sep); simpl; [discriminate|].
  intros Hrest. now rewrite (IH Hrest).
Qed.

Lemma split_with_sep (sep : ascii) (s : string) :
  mem sep s = true -> exists x y l, split sep s = x :: y :: l.
Proof.
  induction s as [|a rest IH]; simpl; [discriminate|].
  destruct (Ascii.eqb a sep); simpl.
  - intros _. pose proof (split_not_nil sep rest) as Hne.
    destruct (split sep rest) as [|y l]; [congruence|].
    now exists EmptyString, y, l.
  - intros Hrest. destruct (IH Hrest) as (x & y & l & ->).
    now exists (String a x), y, l.
Qed.

(** The last piece of a string, from the last piece of its tail. *)
Lemma last_split_cons (sep a : ascii) (s : string) :
  last_item (split sep (String a s))
  = if Ascii.eqb a sep || mem sep s then last_item (split sep s)
    else String a s.
Proof.
  simpl. destruct (Ascii.eqb a sep); simpl.
  - apply last_cons_not_nil, split_not_nil.
  - destruct (mem sep s) eqn:Hmem.
    + destruct (split_with_sep sep s Hmem) as (x & y & l & ->). reflexivity.
    + now rewrite (split_no_sep sep s Hmem).
Qed.

Lemma piece_no_sep (sep : ascii) (s : string) :
  forall p, In p (split sep s) -> mem sep p = false.
Proof.
  induction s as [|a rest IH]; simpl; intros p Hin.
  - destruct Hin as [<-|[]]. reflexivity.
  - destruct (Ascii.eqb a sep) eqn:Ha.
    + destruct Hin as [<-|Hin]; [reflexivity|now apply IH].
    + destruct (split sep rest) as [|piece pieces].
      * destruct Hin as [<-|[]]. simpl. now rewrite Ha.
      * destruct Hin as [<-|Hin].
        -- simpl. rewrite Ha. apply IH. now left.
        -- apply IH. now right.
Qed.

Lemma last_piece_no_sep (sep : ascii) (s : string) :
  mem sep (last_item (split sep s)) = false.
Proof.
  apply (piece_no_sep sep s). apply last_item_In, split_not_nil.
Qed.

(** A string is its last piece, or ends with the separator and its last
    piece. *)
Lemma split_last_decomp (sep : ascii) (s : string) :
  s = last_item (split sep s)
  \/ exists pre, s = (pre ++ String sep (last_item (split sep s)))%string.
Proof.
  induction s as [|a rest IH]; [now left|].
  rewrite last_split_cons.
  destruct (Ascii.eqb a sep) eqn:Ha; simpl.
  - apply Ascii.eqb_eq in Ha. subst a. right.
    destruct IH as [Hrest|[pre Hrest]].
    + exists EmptyString. simpl. now rewrite <- Hrest.
    + exists (String sep pre). simpl. now rewrite <- Hrest.
  - destruct (mem sep rest) eqn:Hmem; [|now left].
    destruct IH as [Hrest|[pre Hrest]].
    + rewrite Hrest, last_piece_no_sep in Hmem. discriminate.
    + right. exists (String a pre). simpl. now rewrite <- Hrest.
Qed.

Lemma rstrip_empty_iff (chars s : string) :
  rstrip chars s = EmptyString <-> all_in chars s = true.
Proof.
  induction s as [|a rest IH]; simpl; [tauto|].
  destruct (mem a chars); simpl.
  - destruct (rstrip chars rest) eqn:Hr; simpl.
    + split; [intros _; now apply IH|reflexivity].
    + split; [discriminate|].
      intros Hall. apply IH in Hall. discriminate.
  - split; discriminate.
Qed.

Lemma rstrip_app_all (chars t : string) :
  all_in chars t = true ->
  forall s, rstrip chars (s ++ t)%string = rstrip chars s.
Proof.
  intros Hall s. induction s as [|a rest IH]; simpl.
  - now apply rstrip_empty_iff.
  - now rewrite IH.
Qed.

(** A string free of slashes is not stripped, nor is what ends with a
    non-empty one. *)
Lemma rstrip_clean (name : string) :
  mem slash name = false -> rstrip "/" name = name.
Proof.
  induction name as [|c rest IH]; [reflexivity|].
  change (mem slash (String c rest))
    with (Ascii.eqb c slash || mem slash rest).
  intros Hclean. apply orb_false_iff in Hclean. destruct Hclean as [Hc Hrest].
  assert (Hm : mem c "/" = false).
  { change (mem c "/") with (Ascii.eqb slash c || false).
    now rewrite Ascii.eqb_sym, Hc. }
  change (rstrip "/" (String c rest))
    with (if mem c "/" && is_empty (rstrip "/" rest) then EmptyString
          else String c (rstrip "/" rest)).
  now rewrite Hm, (IH Hrest).
Qed.

Lemma rstrip_keeps (tail : string) :
  tail <> EmptyString -> rstrip "/" tail = tail ->
  forall pre, rstrip "/" (pre ++ tail)%string = (pre ++ tail)%string.
Proof.
  intros Hne Hkept pre. induction pre as [|a rest IH]; simpl.
  - exact Hkept.
  - rewrite IH.
    destruct (rest ++ tail)%string eqn:Happ.
    + destruct rest; [simpl in Happ; congruence|discriminate].
    + simpl. now rewrite andb_false_r.
Qed.

Lemma mem_app_sep (sep : ascii) (pre s : string) :
  mem sep (pre ++ String sep s)%string = true.
Proof.
  induction pre as [|a rest IH]; simpl.
  - now rewrite Ascii.eqb_refl.
  - rewrite IH. apply orb_true_r.
Qed.

Lemma last_split_after_sep (sep : ascii) (name : string) :
  mem sep name = false ->
  forall pre, last_item (split sep (pre ++ String sep name)%string) = name.
Proof.
  intros Hclean pre. induction pre as [|a rest IH].
  - simpl append. rewrite last_split_cons, Ascii.eqb_refl. simpl.
    now rewrite (split_no_sep sep name Hclean).
  - simpl append. rewrite last_split_cons, mem_app_sep, orb_true_r.
    exact IH.
Qed.

Lemma http_name_empty_iff (path : string) :
  last_item (split slash (rstrip "/" path)) = EmptyString
  <-> all_in "/" path = true.
Proof.
  split.
  - intros Hlast. apply rstrip_empty_iff.
    now apply (last_piece_of_rstrip "/" slash eq_refl).
  - intros Hall. apply rstrip_empty_iff in Hall. now rewrite Hall.
Qed.

Context {decoder : JSONDecoder}.

(** X1. The name the HTTP extractor returns holds no slash, and the path
    stripped of its trailing slashes is that name, or ends with a slash
    followed by that name. *)
Theorem http_result_is_final_component (path : string) :
  exists name,
    _extract_http_tool_name path = Ok (PyStr name)
    /\ mem slash name = false
    /\ (rstrip "/" path = name
        \/ exists pre, rstrip "/" path = (pre ++ String slash name)%string).
Proof.
  exists (last_item (split slash (rstrip "/" path))).
  split; [apply http_is_str|].
  split; [apply last_piece_no_sep|].
  apply split_last_decomp.
Qed.

(** X2. The HTTP extractor returns the empty string exactly for the paths
    made of slashes only, the empty path among them. *)
Theorem http_empty_iff_only_slashes (path : string) :
  _extract_http_tool_name path = Ok (PyStr "")
  <-> all_in "/" path = true.
Proof.
  rewrite http_is_str. rewrite <- http_name_empty_iff.
  split; [intros [= ->]; reflexivity|intros ->; reflexivity].
Qed.

(** X3. For a non-empty name without a slash, the HTTP extractor returns the
    name from the name alone and from any prefix, a slash and the name,
    whatever number of slashes follows. *)
Theorem http_of_joined_path (pre name trailing : string) :
  name <> EmptyString -> mem slash name = false ->
  all_in "/" trailing = true ->
  _extract_http_tool_name (name ++ trailing)%string = Ok (PyStr name)
  /\ _extract_http_tool_name
       ((pre ++ String slash name) ++ trailing)%string
     = Ok (PyStr name).
Proof.
  intros Hne Hclean Hall. rewrite !http_is_str.
  rewrite !(rstrip_app_all "/" trailing Hall).
  split.
  - rewrite (rstrip_clean name Hclean).
    now rewrite (split_no_sep slash name Hclean).
  - rewrite (rstrip_keeps (String slash name)); [|discriminate|].
    + now rewrite (last_split_after_sep slash name Hclean).
    + change (String slash name) with (String slash EmptyString ++ name)%string.
      now apply (rstrip_keeps name Hne), rstrip_clean.
Qed.

(** X4. Any number of trailing slashes leaves the result of the HTTP
    extractor, and the path fallback of the A2A extractor, unchanged. *)
Theorem trailing_slashes_are_ignored (path trailing : string) :
  all_in "/" trailing = true ->
  _extract_http_tool_name (path ++ trailing)%string
  = _extract_http_tool_name path
  /\ _extract_a2a_tool_name None (path ++ trailing)%string
     = _extract_a2a_tool_name None path.
Proof.
  intros Hall.
  unfold _extract_a2a_tool_name, a2a_path_fallback, _extract_http_tool_name.
  now rewrite (rstrip_app_all "/" trailing Hall).
Qed.

(** X5. The A2A extractor returns whenever [json.loads] returns on the body
    or raises an exception that the except clause lists, and it never returns
    None: whatever it returns has a true truth value, or is the empty string,
    which happens only for a path made of slashes only. *)
Theorem a2a_result_is_never_none (body : option string) (path : string) :
  (decodes_or_caught body ->
   exists v, _extract_a2a_tool_name body path = Ok v)
  /\ (forall v,
         _extract_a2a_tool_name body path = Ok v ->
         v <> PyNone
         /\ (truthy v = true \/ (v = PyStr "" /\ all_in "/" path = true))).
Proof.
  split.
  - intros Hcaught.
    assert (Hfb : exists v, a2a_path_fallback path = Ok v)
      by (unfold a2a_path_fallback; eexists; reflexivity).
    unfold _extract_a2a_tool_name.
    destruct body as [b|]; [|exact Hfb].
    destruct (String.eqb b ""); [exact Hfb|].
    unfold try_except, bind.
    destruct (json_loads b) as [data|e] eqn:Hload; cbv beta iota.
    + destruct (py_get data "skill_id" PyNone) as [k|e1] eqn:Hk;
        cbv beta iota.
      * destruct (truthy k); [eexists; reflexivity|exact Hfb].
      * apply py_get_raises in Hk. subst e1.
        change (existsb (exn_eqb AttributeError) handled) with true.
        exact Hfb.
    + rewrite (handled_caught e (Hcaught e Hload)). exact Hfb.
  - intros v.
    assert (Hfb : a2a_path_fallback path = Ok v ->
                  v <> PyNone
                  /\ (truthy v = true
                      \/ (v = PyStr "" /\ all_in "/" path = true))).
    { rewrite a2a_fallback_is_http, http_is_str. intros [= <-].
      split; [discriminate|].
      destruct (last_item (split slash (rstrip "/" path))) eqn:Hlast.
      - right. split; [reflexivity|]. now apply http_name_empty_iff.
      - left. reflexivity. }
    unfold _extract_a2a_tool_name.
    destruct body as [b|]; [|exact Hfb].
    destruct (String.eqb b ""); [exact Hfb|].
    unfold try_except, bind.
    destruct (json_loads b) as [data|e]; cbv beta iota.
    + destruct (py_get data "skill_id" PyNone) as [k|e1] eqn:Hk;
        cbv beta iota.
      * destruct (truthy k) eqn:Ht; [|exact Hfb].
        intros [= <-]. split; [|now left]. intros ->. discriminate.
      * apply py_get_raises in Hk. subst e1.
        change (existsb (exn_eqb AttributeError) handled) with true.
        exact Hfb.
    + destruct (existsb (exn_eqb e) handled); [exact Hfb|discriminate].
Qed.

End SegmentFacts.

(** ** What [dispatch] logs and returns *)

Section DispatchMoreFacts.

Import Middleware.

Context {decoder : JSONDecoder}.
Variable decode : bytes -> string.
Variable init_headers :
  list (string * string) -> bytes -> Z -> option string ->
  list (string * string).
Variable validate : RequestLogEntry -> bool.
Variable logger_log : RequestLogEntry -> result unit.



Lemma capture_response_meta (response0 response : Response)
    (text : option string) (size : Z) :
  capture_response decode init_headers response0
  = Ok (text, size, response) ->
  status_code response = status_code response0
  /\ media_type response = media_type response0.
Proof.
  unfold capture_response.
  destruct (read_body response0) as [raw|e]; simpl.
  - intros [= _ _ <-]. auto.
  - destruct (is_exception e); [|discriminate].
    intros [= _ _ <-]. auto.
Qed.

(** The fields of the logged entry that come straight from the request, the
    logger and the response, and what [dispatch] then returns. *)
Lemma dispatch_inv_meta (env : Env) (logger_protocol : option string)
    (request : Request) (call_next : result Response)
    (entry : RequestLogEntry) :
  In entry
    (fst (dispatch decode init_headers validate logger_log env
            logger_protocol request call_next)) ->
  exists response0,
    call_next = Ok response0
    /\ entry_method entry = method request
    /\ path entry = url_path request
    /\ protocol entry = logger_protocol
    /\ entry_status_code entry = status_code response0
    /\ entry_headers entry
       = match capture_headers request with
         | [] => None
         | _ :: _ => Some (capture_headers request)
         end.
Proof.
  unfold dispatch.
  destruct (capture_request decode request) as [[rb rs]|e]; [|intros []].
  destruct call_next as [response0|e]; [|intros []].
  destruct (capture_response decode init_headers response0)
    as [[[pb ps] r]|e] eqn:Hcap; [|intros []].
  apply capture_response_meta in Hcap. destruct Hcap as [Hstatus _].
  unfold build_entry.
  destruct (extract_tool_name logger_protocol rb (url_path request))
    as [tn|e]; simpl; [|intros []].
  unfold new_RequestLogEntry.
  match goal with |- context [validate ?f] =>
    destruct (validate f) end; [|intros []].
  intros [<-|[]]. exists response0. simpl.
  repeat split; try reflexivity. exact Hstatus.
Qed.

(** A response [dispatch] returns is the one kept from the capture, and an
    entry was logged on the way. *)
Lemma dispatch_response (env : Env) (logger_protocol : option string)
    (request : Request) (call_next : result Response)
    (response : Response) :
  snd (dispatch decode init_headers validate logger_log env
         logger_protocol request call_next) = Ok response ->
  exists response0 text size entry,
    call_next = Ok response0
    /\ capture_response decode init_headers response0
       = Ok (text, size, response)
    /\ fst (dispatch decode init_headers validate logger_log env
              logger_protocol request call_next) = [entry]
    /\ logger_log entry = Ok tt.
Proof.
  unfold dispatch.
  destruct (capture_request decode request) as [[rb rs]|e];
    [|discriminate].
  destruct call_next as [response0|e]; [|discriminate].
  destruct (capture_response decode init_headers response0)
    as [[[pb ps] r]|e] eqn:Hcap; [|discriminate].
  destruct (build_entry _ _ _ _ _ _ _ _ _) as [entry|e]; [|discriminate].
  simpl. destruct (logger_log entry) as [[]|e] eqn:Hlog; simpl;
    [|discriminate].
  intros [= <-]. exists response0, pb, ps, entry. rewrite Hcap. auto.
Qed.

(** X6. For a POST, PUT or PATCH whose body has at most 16384 bytes, the
    entry logged holds the decoding of the whole body and its length, and its
    tool name is extracted from that decoded body. *)
Theorem body_within_limit_is_kept (env : Env)
    (logger_protocol : option string) (request : Request)
    (call_next : result Response) (b : bytes) (entry : RequestLogEntry) :
  has_body_method request = true -> body request = Ok b ->
  (len b <= _BODY_LIMIT)%Z ->
  In entry (fst (dispatch decode init_headers validate logger_log env
                   logger_protocol request call_next)) ->
  request_body entry = Some (decode b)
  /\ request_body_size entry = len b
  /\ extract_tool_name logger_protocol (Some (decode b)) (url_path request)
     = Ok (tool_name entry).
Proof.
  intros Hm Hb Hsmall Hlogged. apply dispatch_inv in Hlogged.
  destruct Hlogged as (r0 & r & _ & Hreq & _ & Htool & _).
  unfold capture_request in Hreq. rewrite Hm, Hb in Hreq. simpl in Hreq.
  apply Z.leb_le in Hsmall. rewrite Hsmall in Hreq.
  injection Hreq as Hbody Hsize. rewrite <- Hbody in Htool. auto.
Qed.

(** X7. For a POST, PUT or PATCH whose body has more than 16384 bytes, the
    extraction sees no body: under the protocol mcp the entry logged has no
    tool name, under a2a it has the one the path gives, whatever the body
    holds. *)
Theorem oversized_body_hides_tool_name (env : Env)
    (logger_protocol : option string) (request : Request)
    (call_next : result Response) (b : bytes) (entry : RequestLogEntry) :
  has_body_method request = true -> body request = Ok b ->
  (_BODY_LIMIT < len b)%Z ->
  In entry (fst (dispatch decode init_headers validate logger_log env
                   logger_protocol request call_next)) ->
  (logger_protocol = Some "mcp" -> tool_name entry = PyNone)
  /\ (logger_protocol = Some "a2a" ->
      _extract_http_tool_name (url_path request) = Ok (tool_name entry)).
Proof.
  intros Hm Hb Hbig Hlogged. apply dispatch_inv in Hlogged.
  destruct Hlogged as (r0 & r & _ & Hreq & _ & Htool & _).
  rewrite (capture_request_oversized decode request b Hm Hb Hbig) in Hreq.
  injection Hreq as Hbody _. rewrite <- Hbody in Htool.
  split; intros ->.
  - change (Ok PyNone = Ok (tool_name entry)) in Htool. congruence.
  - exact Htool.
Qed.

(** X8. When reading the request body raises an exception that derives from
    [Exception], the exception goes no further: whichever it is, [dispatch]
    logs and returns the same, and the entry logged has a None body of size
    0 and the tool name the extractors give for a None body.  Any other
    exception raised by reading the body (a cancellation, a keyboard
    interrupt) leaves [dispatch], and nothing is logged. *)
Theorem unreadable_body_is_ignored (env : Env)
    (logger_protocol : option string) (request : Request)
    (call_next : result Response) (e : exn) :
  body request = Raise e ->
  (is_exception e = true ->
   (forall entry,
       In entry (fst (dispatch decode init_headers validate logger_log env
                        logger_protocol request call_next)) ->
       request_body entry = None
       /\ request_body_size entry = 0%Z
       /\ extract_tool_name logger_protocol None (url_path request)
          = Ok (tool_name entry))
   /\ (forall e',
          is_exception e' = true ->
          dispatch decode init_headers validate logger_log env
            logger_protocol (with_body request (Raise e')) call_next
          = dispatch decode init_headers validate logger_log env
              logger_protocol request call_next))
  /\ (is_exception e = false -> has_body_method request = true ->
      dispatch decode init_headers validate logger_log env
        logger_protocol request call_next
      = ([], Raise e)).
Proof.
  intros Hb. split.
  - intros He.
    assert (Hc : forall r e0, body r = Raise e0 -> is_exception e0 = true ->
                 capture_request decode r = Ok (None, 0%Z)).
    { intros r e0 Hr He0. unfold capture_request.
      destruct (has_body_method r); [|reflexivity].
      rewrite Hr. simpl. now rewrite He0. }
    split.
    + intros entry Hlogged. apply dispatch_inv in Hlogged.
      destruct Hlogged as (r0 & r & _ & Hreq & _ & Htool & _).
      rewrite (Hc request e Hb He) in Hreq.
      injection Hreq as Hbody Hsize. rewrite <- Hbody in Htool. auto.
    + intros e' He'. unfold dispatch.
      rewrite (Hc request e Hb He).
      now rewrite (Hc (with_body request (Raise e')) e' eq_refl He').
  - intros He Hm. unfold dispatch, capture_request.
    rewrite Hm, Hb. simpl. now rewrite He.
Qed.

(** X9. When the body iterator of the response runs to its end, the response
    [dispatch] returns has the status code and the media type of the one
    [call_next] returned and the same body bytes, and its headers are those
    the constructor makes of the headers of that response; the entry logged
    has that status code. *)
Theorem response_is_replayed (env : Env) (logger_protocol : option string)
    (request : Request) (response0 : Response) :
  iter_error response0 = None ->
  (forall response,
      snd (dispatch decode init_headers validate logger_log env
             logger_protocol request (Ok response0)) = Ok response ->
      status_code response = status_code response0
      /\ media_type response = media_type response0
      /\ read_body response = read_body response0
      /\ exists raw,
           read_body response0 = Ok raw
           /\ headers response
              = init_headers (headers response0) raw
                  (status_code response0) (media_type response0))
  /\ (forall entry,
         In entry (fst (dispatch decode init_headers validate logger_log env
                          logger_protocol request (Ok response0))) ->
         entry_status_code entry = status_code response0).
Proof.
  intros Hiter. split.
  - intros response Hret. apply dispatch_response in Hret.
    destruct Hret as (r0 & text & size & entry & [= <-] & Hcap & _).
    unfold capture_response, read_body in *. rewrite Hiter in *.
    simpl in Hcap. injection Hcap as _ _ <-. simpl.
    repeat split.
    + now rewrite app_nil_r.
    + eexists. split; reflexivity.
  - intros entry Hlogged. apply dispatch_inv_meta in Hlogged.
    destruct Hlogged as (r0 & [= <-] & _ & _ & _ & Hstatus & _).
    exact Hstatus.
Qed.

(** X10. When the body iterator of the response raises an exception that
    derives from [Exception], the exception goes no further: [dispatch]
    returns the response of [call_next], with its status code, headers and
    media type, its iterator used up (nothing more to read), and the entry
    logged has a None response body of size 0.  Any other exception raised
    by the iterator leaves [dispatch], and nothing is logged. *)
Theorem broken_response_is_passed_on (env : Env)
    (logger_protocol : option string) (request : Request)
    (response0 : Response) (e : exn) :
  iter_error response0 = Some e ->
  (is_exception e = true ->
   (forall response,
       snd (dispatch decode init_headers validate logger_log env
              logger_protocol request (Ok response0)) = Ok response ->
       response = consumed response0
       /\ status_code response = status_code response0
       /\ headers response = headers response0
       /\ media_type response = media_type response0
       /\ read_body response = Ok [])
   /\ (forall entry,
          In entry (fst (dispatch decode init_headers validate logger_log
                           env logger_protocol request (Ok response0))) ->
          response_body entry = None
          /\ response_body_size entry = 0%Z
          /\ entry_status_code entry = status_code response0))
  /\ (is_exception e = false ->
      fst (dispatch decode init_headers validate logger_log env
             logger_protocol request (Ok response0)) = []
      /\ exists e',
           snd (dispatch decode init_headers validate logger_log env
                  logger_protocol request (Ok response0)) = Raise e').
Proof.
  intros Hiter. split.
  - intros He.
    assert (Hc : capture_response decode init_headers response0
                 = Ok (None, 0%Z, consumed response0)).
    { unfold capture_response, read_body. rewrite Hiter. simpl.
      now rewrite He. }
    split.
    + intros response Hret. apply dispatch_response in Hret.
      destruct Hret as (r0 & text & size & entry & [= <-] & Hcap & _).
      rewrite Hc in Hcap. injection Hcap as _ _ <-.
      repeat split.
    + intros entry Hlogged.
      pose proof (dispatch_inv_meta _ _ _ _ _ Hlogged)
        as (r0 & [= <-] & _ & _ & _ & Hstatus & _).
      apply dispatch_inv in Hlogged.
      destruct Hlogged as (r1 & r & [= <-] & _ & Hresp & _).
      rewrite Hc in Hresp. injection Hresp as Hbody Hsize _. auto.
  - intros He.
    assert (Hc : capture_response decode init_headers response0 = Raise e).
    { unfold capture_response, read_body. rewrite Hiter. simpl.
      now rewrite He. }
    unfold dispatch.
    destruct (capture_request decode request) as [[rb rs]|e0].
    + rewrite Hc. split; [reflexivity|now exists e].
    + split; [reflexivity|now exists e0].
Qed.

(** X11. The headers of the entry logged are those of user-agent,
    content-type and referer that the request has, with the values it has
    for them; they are None exactly when the request has none of the
    three. *)
Theorem headers_are_the_present_ones (env : Env)
    (logger_protocol : option string) (request : Request)
    (call_next : result Response) (entry : RequestLogEntry) :
  In entry (fst (dispatch decode init_headers validate logger_log env
                   logger_protocol request call_next)) ->
  match entry_headers entry with
  | None =>
      header request "user-agent" = None
      /\ header request "content-type" = None
      /\ header request "referer" = None
  | Some kept =>
      kept <> []
      /\ forall k v,
           In (k, v) kept
           <-> In k ["user-agent"; "content-type"; "referer"]
               /\ header request k = Some v
  end.
Proof.
  intros Hlogged. apply dispatch_inv_meta in Hlogged.
  destruct Hlogged as (r0 & _ & _ & _ & _ & _ & Hheaders).
  rewrite Hheaders. clear Hheaders.
  assert (Hin : forall k v,
             In (k, v) (capture_headers request)
             <-> In k ["user-agent"; "content-type"; "referer"]
                 /\ header request k = Some v).
  { intros k v. unfold capture_headers. rewrite in_flat_map. split.
    - intros (x & Hx & Hkv).
      destruct (header request x) as [w|] eqn:Hw; [|destruct Hkv].
      destruct Hkv as [[= <- <-]|[]]. auto.
    - intros [Hk Hv]. exists k. split; [exact Hk|].
      rewrite Hv. now left. }
  destruct (capture_headers request) as [|kv kept] eqn:Hc.
  - assert (Hnone : forall k,
               In k ["user-agent"; "content-type"; "referer"] ->
               header request k = None).
    { intros k Hk. destruct (header request k) as [v|] eqn:Hv;
        [|reflexivity].
      destruct (proj2 (Hin k v) (conj Hk Hv)). }
    repeat split; apply Hnone; simpl; auto.
  - split; [discriminate|exact Hin].
Qed.


(** X13. For a logger whose protocol is neither mcp nor a2a, the tool name
    of the entry logged is the one the HTTP extractor gives for the path,
    whatever the method and the body of the request. *)
Theorem other_protocol_uses_path (env : Env)
    (logger_protocol : option string) (request : Request)
    (call_next : result Response) (entry : RequestLogEntry) :
  logger_protocol <> Some "mcp" -> logger_protocol <> Some "a2a" ->
  In entry (fst (dispatch decode init_headers validate logger_log env
                   logger_protocol request call_next)) ->
  _extract_http_tool_name (url_path request) = Ok (tool_name entry).
Proof.
  intros Hmcp Ha2a Hlogged. apply dispatch_inv in Hlogged.
  destruct Hlogged as (r0 & r & _ & _ & _ & Htool & _).
  unfold extract_tool_name in Htool.
  destruct logger_protocol as [p|]; simpl in Htool; [|exact Htool].
  destruct (String.eqb p "mcp") eqn:H1.
  { apply String.eqb_eq in H1. congruence. }
  destruct (String.eqb p "a2a") eqn:H2.
  { apply String.eqb_eq in H2. congruence. }
  exact Htool.
Qed.

(** X14. The response body size of the entry logged is the number of bytes
    of all the chunks the iterator yielded, a [str] chunk counting by its
    UTF-8 encoding, when the iterator runs to its end. *)
Theorem response_size_counts_all_chunks (env : Env)
    (logger_protocol : option string) (request : Request)
    (response0 : Response) (entry : RequestLogEntry) :
  iter_error response0 = None ->
  In entry (fst (dispatch decode init_headers validate logger_log env
                   logger_protocol request (Ok response0))) ->
  response_body_size entry
  = Z.of_nat (list_sum (List.map (fun c => List.length (as_bytes c))
                          (chunks response0))).
Proof.
  intros Hiter Hlogged. apply dispatch_inv in Hlogged.
  destruct Hlogged as (r0 & r & [= <-] & _ & Hresp & _).
  unfold capture_response, read_body in Hresp. rewrite Hiter in Hresp.
  simpl in Hresp.
  assert (Hsize : response_body_size entry
                  = len (List.concat (List.map as_bytes (chunks response0)))).
  { destruct (len _ <=? _BODY_LIMIT)%Z; congruence. }
  rewrite Hsize. unfold len. f_equal.
  rewrite length_concat, List.map_map. reflexivity.
Qed.

Lemma capture_request_some (request : Request) (text : string) (size : Z) :
  capture_request decode request = Ok (Some text, size) ->
  has_body_method request = true
  /\ exists b, body request = Ok b /\ (len b <= _BODY_LIMIT)%Z
               /\ text = decode b.
Proof.
  unfold capture_request.
  destruct (has_body_method request); [|discriminate].
  destruct (body request) as [b|e]; simpl.
  - destruct (len b <=? _BODY_LIMIT)%Z eqn:Hle; [|discriminate].
    intros [= <- _]. split; [reflexivity|].
    exists b. apply Z.leb_le in Hle. auto.
  - destruct (is_exception e); discriminate.
Qed.

(** A name the MCP extractor returns comes from a tools/call body. *)
Lemma mcp_name_from_tools_call (body : option string) (name : pyval) :
  _extract_mcp_tool_name body = Ok name -> name <> PyNone ->
  mcp_tools_call_name body name.
Proof.
  unfold _extract_mcp_tool_name.
  destruct body as [b|]; [|congruence].
  destruct (String.eqb b ""); [congruence|].
  unfold try_except, bind.
  destruct (json_loads b) as [data|e] eqn:Hload; cbv beta iota.
  - destruct data as [ | | | | |l|d];
      try (change (Ok PyNone = Ok name -> name <> PyNone ->
                   mcp_tools_call_name (Some b) name); congruence).
    unfold py_get at 1.
    destruct (dict_get d "method") as [m|] eqn:Hm; cbv beta iota.
    + destruct (py_eq_str m "tools/call") eqn:Heq; [|congruence].
      apply py_eq_str_true in Heq. subst m.
      unfold py_get at 1.
      destruct (dict_get d "params") as [ps|] eqn:Hp; cbv beta iota.
      * destruct ps as [ | | | | |l|params];
          try (change (Ok PyNone = Ok name -> name <> PyNone ->
                       mcp_tools_call_name (Some b) name); congruence).
        unfold py_get.
        destruct (dict_get params "name") as [v|] eqn:Hn; cbv beta iota.
        -- intros [= <-] _. exists b, d, params. auto.
        -- congruence.
      * change (Ok PyNone = Ok name -> name <> PyNone ->
                mcp_tools_call_name (Some b) name). congruence.
    + change (Ok PyNone = Ok name -> name <> PyNone ->
              mcp_tools_call_name (Some b) name). congruence.
  - destruct (existsb (exn_eqb e) handled); congruence.
Qed.

(** X15. Under the protocol mcp, the entry logged has a tool name other than
    None only when the request is a POST, PUT or PATCH whose body has at most
    16384 bytes and decodes to a tools/call mapping with that name. *)
Theorem mcp_tool_name_needs_tools_call (env : Env) (request : Request)
    (call_next : result Response) (entry : RequestLogEntry) :
  In entry
    (fst (dispatch decode init_headers validate logger_log env (Some "mcp")
            request call_next)) ->
  tool_name entry <> PyNone ->
  has_body_method request = true
  /\ exists b,
       body request = Ok b
       /\ (len b <= _BODY_LIMIT)%Z
       /\ mcp_tools_call_name (Some (decode b)) (tool_name entry).
Proof.
  intros Hlogged Hname. apply dispatch_inv in Hlogged.
  destruct Hlogged as (r0 & r & _ & Hreq & _ & Htool & _).
  change (_extract_mcp_tool_name (request_body entry) = Ok (tool_name entry))
    in Htool.
  apply mcp_name_from_tools_call in Htool; [|exact Hname].
  destruct (request_body entry) as [text|] eqn:Hbody.
  - destruct (capture_request_some request text _ Hreq)
      as (Hm & b & Hb & Hle & ->).
    split; [exact Hm|]. exists b. auto.
  - destruct Htool as (b & _ & _ & [=] & _).
Qed.

End DispatchMoreFacts.

(** ** The further properties on inputs of the tests *)

Section MoreWitnesses.

Import Middleware Fixtures.

(** Singles out the entry a concrete call of [dispatch] logs. *)
Ltac the_logged_entry logged entry Hlogged :=
  assert (Hlogged : exists e, logged = [e])
    by (vm_compute; eexists; reflexivity);
  destruct Hlogged as [entry Hlogged].

Ltac is_logged logged entry Hlogged :=
  change (In entry logged); rewrite Hlogged; left; reflexivity.

Lemma http_of_joined_path_witness :
  _extract_http_tool_name "search//" = Ok (PyStr "search")
  /\ _extract_http_tool_name "/api/search//" = Ok (PyStr "search").
Proof.
  apply (http_of_joined_path "/api" "search" "//");
    [discriminate|reflexivity|reflexivity].
Defined.

Lemma trailing_slashes_are_ignored_witness :
  _extract_http_tool_name "/a2a/tasks/send///"
  = _extract_http_tool_name "/a2a/tasks/send"
  /\ _extract_a2a_tool_name None "/a2a/tasks/send///"
     = _extract_a2a_tool_name None "/a2a/tasks/send".
Proof.
  apply (trailing_slashes_are_ignored "/a2a/tasks/send" "///").
  reflexivity.
Defined.

Lemma a2a_result_is_never_none_witness :
  _extract_a2a_tool_name (Some a2a_translate) "/a2a"
  = Ok (PyStr "translate")
  /\ truthy (PyStr "translate") = true.
Proof.
  assert (Hrun : _extract_a2a_tool_name (Some a2a_translate) "/a2a"
                 = Ok (PyStr "translate")) by reflexivity.
  split; [exact Hrun|].
  destruct (proj2 (a2a_result_is_never_none (Some a2a_translate) "/a2a")
              (PyStr "translate") Hrun)
    as [_ [Htruthy|[Hempty _]]].
  - exact Htruthy.
  - discriminate Hempty.
Defined.

(** A tools/call body padded to exactly 16384 bytes is kept and read. *)
Lemma body_within_limit_is_kept_witness :
  exists entry,
    fst (dispatch decode_ascii init_headers validate logger_log env (Some "mcp")
           (request "POST" "/mcp" (padded_body mcp_tools_call 16330))
           (Ok (response_ok (body_of_size 2))))
    = [entry]
    /\ request_body_size entry = 16384%Z
    /\ tool_name entry = PyStr "search".
Proof.
  set (logged := fst (dispatch decode_ascii init_headers validate logger_log env
                        (Some "mcp")
                        (request "POST" "/mcp"
                           (padded_body mcp_tools_call 16330))
                        (Ok (response_ok (body_of_size 2))))).
  the_logged_entry logged entry Hlogged.
  exists entry. split; [exact Hlogged|].
  destruct (body_within_limit_is_kept decode_ascii init_headers validate logger_log env
              (Some "mcp")
              (request "POST" "/mcp" (padded_body mcp_tools_call 16330))
              (Ok (response_ok (body_of_size 2)))
              (padded_body mcp_tools_call 16330) entry)
    as (_ & Hs & Ht);
    [reflexivity|reflexivity|vm_compute; discriminate
    |is_logged logged entry Hlogged|].
  split.
  - rewrite Hs. vm_compute. reflexivity.
  - vm_compute in Ht. injection Ht as Ht. symmetry. exact Ht.
Defined.

(** The same body with one more byte is dropped, and the tool name with
    it. *)
Lemma oversized_body_hides_tool_name_witness :
  exists entry,
    fst (dispatch decode_ascii init_headers validate logger_log env (Some "mcp")
           (request "POST" "/mcp" (padded_body mcp_tools_call 16331))
           (Ok (response_ok (body_of_size 2))))
    = [entry]
    /\ tool_name entry = PyNone.
Proof.
  set (logged := fst (dispatch decode_ascii init_headers validate logger_log env
                        (Some "mcp")
                        (request "POST" "/mcp"
                           (padded_body mcp_tools_call 16331))
                        (Ok (response_ok (body_of_size 2))))).
  the_logged_entry logged entry Hlogged.
  exists entry. split; [exact Hlogged|].
  destruct (oversized_body_hides_tool_name decode_ascii init_headers validate logger_log
              env (Some "mcp")
              (request "POST" "/mcp" (padded_body mcp_tools_call 16331))
              (Ok (response_ok (body_of_size 2)))
              (padded_body mcp_tools_call 16331) entry)
    as [Hmcp _];
    [reflexivity|reflexivity|vm_compute; reflexivity
    |is_logged logged entry Hlogged|].
  now apply Hmcp.
Defined.

Lemma unreadable_body_is_ignored_witness :
  exists entry,
    fst (dispatch decode_ascii init_headers validate logger_log env (Some "mcp")
           (request_unreadable "POST" "/mcp")
           (Ok (response_ok (body_of_size 2))))
    = [entry]
    /\ request_body entry = None
    /\ request_body_size entry = 0%Z.
Proof.
  set (logged := fst (dispatch decode_ascii init_headers validate logger_log env
                        (Some "mcp") (request_unreadable "POST" "/mcp")
                        (Ok (response_ok (body_of_size 2))))).
  the_logged_entry logged entry Hlogged.
  exists entry. split; [exact Hlogged|].
  destruct (unreadable_body_is_ignored decode_ascii init_headers validate logger_log env
              (Some "mcp") (request_unreadable "POST" "/mcp")
              (Ok (response_ok (body_of_size 2)))
              (OtherError "ClientDisconnect") eq_refl)
    as [Hcaught _].
  destruct (Hcaught eq_refl) as [Hentry _].
  destruct (Hentry entry) as (Hb & Hs & _); [is_logged logged entry Hlogged|].
  split; assumption.
Defined.

Lemma response_is_replayed_witness :
  exists response,
    snd (dispatch decode_ascii init_headers validate logger_log env None
           (request "GET" "/health" []) (Ok response_streamed))
    = Ok response
    /\ status_code response = 201%Z
    /\ read_body response = read_body response_streamed.
Proof.
  set (returned := snd (dispatch decode_ascii init_headers validate logger_log env None
                          (request "GET" "/health" [])
                          (Ok response_streamed))).
  assert (Hret : exists r, returned = Ok r)
    by (vm_compute; eexists; reflexivity).
  destruct Hret as [response Hret].
  exists response. split; [exact Hret|].
  destruct (response_is_replayed decode_ascii init_headers validate logger_log env None
              (request "GET" "/health" []) response_streamed eq_refl)
    as [Hsame _].
  destruct (Hsame response Hret) as (Hstatus & _ & Hbody & _).
  split; [exact Hstatus|exact Hbody].
Defined.

Lemma broken_response_is_passed_on_witness :
  exists entry,
    dispatch decode_ascii init_headers validate logger_log env None
      (request "GET" "/health" []) (Ok response_broken)
    = ([entry], Ok (consumed response_broken))
    /\ read_body (consumed response_broken) = Ok []
    /\ response_body entry = None
    /\ response_body_size entry = 0%Z.
Proof.
  set (run := dispatch decode_ascii init_headers validate logger_log env None
                (request "GET" "/health" []) (Ok response_broken)).
  assert (Hrun : exists e, run = ([e], Ok (consumed response_broken)))
    by (vm_compute; eexists; reflexivity).
  destruct Hrun as [entry Hrun].
  exists entry. split; [exact Hrun|].
  destruct (broken_response_is_passed_on decode_ascii init_headers validate
              logger_log env None (request "GET" "/health" [])
              response_broken (OtherError "RuntimeError") eq_refl)
    as [Hcaught _].
  destruct (Hcaught eq_refl) as [Hret Hentry].
  destruct (Hret (consumed response_broken)) as (_ & _ & _ & _ & Hread).
  { change (snd run = Ok (consumed response_broken)). rewrite Hrun.
    reflexivity. }
  destruct (Hentry entry) as (Hb & Hs & _).
  { change (In entry (fst run)). rewrite Hrun. left. reflexivity. }
  split; [exact Hread|]. split; assumption.
Defined.


Lemma headers_are_the_present_ones_witness :
  exists entry kept,
    fst (dispatch decode_ascii init_headers validate logger_log env None
           (request_with_headers "GET" "/health" [])
           (Ok response_streamed))
    = [entry]
    /\ entry_headers entry = Some kept
    /\ In ("content-type", "application/json") kept.
Proof.
  set (logged := fst (dispatch decode_ascii init_headers validate logger_log env None
                        (request_with_headers "GET" "/health" [])
                        (Ok response_streamed))).
  assert (Hlogged : exists e kept,
             logged = [e] /\ entry_headers e = Some kept)
    by (vm_compute; eexists; eexists; split; reflexivity).
  destruct Hlogged as (entry & kept & Hlogged & Hkept).
  exists entry, kept. split; [exact Hlogged|]. split; [exact Hkept|].
  pose proof (headers_are_the_present_ones decode_ascii init_headers validate logger_log
                env None (request_with_headers "GET" "/health" [])
                (Ok response_streamed) entry) as Hheaders.
  rewrite Hkept in Hheaders.
  destruct Hheaders as [_ Hin]; [is_logged logged entry Hlogged|].
  apply Hin. split; [simpl; auto|reflexivity].
Defined.

(** Without a protocol a tools/call body is not looked at: the tool name is
    the path segment. *)
Lemma other_protocol_uses_path_witness :
  exists entry,
    fst (dispatch decode_ascii init_headers validate logger_log env None
           (request "POST" "/mcp" (list_byte_of_string mcp_tools_call))
           (Ok (response_ok (body_of_size 2))))
    = [entry]
    /\ tool_name entry = PyStr "mcp".
Proof.
  set (logged := fst (dispatch decode_ascii init_headers validate logger_log env None
                        (request "POST" "/mcp"
                           (list_byte_of_string mcp_tools_call))
                        (Ok (response_ok (body_of_size 2))))).
  the_logged_entry logged entry Hlogged.
  exists entry. split; [exact Hlogged|].
  assert (Ht : _extract_http_tool_name "/mcp" = Ok (tool_name entry)).
  { apply (other_protocol_uses_path decode_ascii init_headers validate logger_log env
             None
             (request "POST" "/mcp" (list_byte_of_string mcp_tools_call))
             (Ok (response_ok (body_of_size 2))) entry);
      [discriminate|discriminate|is_logged logged entry Hlogged]. }
  vm_compute in Ht. injection Ht as Ht. symmetry. exact Ht.
Defined.

Lemma response_size_counts_all_chunks_witness :
  exists entry,
    fst (dispatch decode_ascii init_headers validate logger_log env None
           (request "GET" "/health" []) (Ok response_streamed))
    = [entry]
    /\ response_body_size entry = 5%Z.
Proof.
  set (logged := fst (dispatch decode_ascii init_headers validate logger_log env None
                        (request "GET" "/health" [])
                        (Ok response_streamed))).
  the_logged_entry logged entry Hlogged.
  exists entry. split; [exact Hlogged|].
  rewrite (response_size_counts_all_chunks decode_ascii init_headers validate logger_log
             env None (request "GET" "/health" []) response_streamed entry
             eq_refl);
    [reflexivity|is_logged logged entry Hlogged].
Defined.

Lemma mcp_tool_name_needs_tools_call_witness :
  exists entry b,
    fst (dispatch decode_ascii init_headers validate logger_log env (Some "mcp")
           (request "POST" "/mcp" (list_byte_of_string mcp_tools_call))
           (Ok (response_ok (body_of_size 2))))
    = [entry]
    /\ tool_name entry = PyStr "search"
    /\ Ok (list_byte_of_string mcp_tools_call) = Ok b
    /\ (len b <= _BODY_LIMIT)%Z.
Proof.
  set (logged := fst (dispatch decode_ascii init_headers validate logger_log env
                        (Some "mcp")
                        (request "POST" "/mcp"
                           (list_byte_of_string mcp_tools_call))
                        (Ok (response_ok (body_of_size 2))))).
  assert (Hlogged : exists e,
             logged = [e] /\ tool_name e = PyStr "search")
    by (vm_compute; eexists; split; reflexivity).
  destruct Hlogged as (entry & Hlogged & Hname).
  destruct (mcp_tool_name_needs_tools_call decode_ascii init_headers validate logger_log
              env
              (request "POST" "/mcp" (list_byte_of_string mcp_tools_call))
              (Ok (response_ok (body_of_size 2))) entry)
    as (_ & b & Hb & Hle & _).
  { is_logged logged entry Hlogged. }
  { rewrite Hname. discriminate. }
  exists entry, b. auto.
Defined.

End MoreWitnesses.
